(** * GameSocio: rating/upvote aggregation and portfolio attachments

    A shallow embedding of the client logic of the GameSocio web
    application (React + a hosted relational store + an object store):

    - [src/lib/storage.ts]: [uploadPortfolioFile], [deletePortfolioFile],
      [getFileType];
    - [src/components/sections/IdeasHub.tsx]: [handleSubmit],
      [handleUpvote];
    - [src/components/sections/CommunityMedia.tsx]: [handleSubmit],
      [handleUpvote];
    - the collaboration zone (second document of [IdeasHub.tsx]):
      [loadProjects], [handleProjectSubmit], [handleFeedbackSubmit],
      [getAverageRating];
    - [src/components/Profile.tsx]: [handlePortfolioSubmit],
      [handleDeletePortfolioItem], [handleFileUpload], [handleAddLink],
      [handleClearFile].

    The events section ([EventsSection.tsx]) has one write, a
    [handleSubmit] of the same shape as the two above, and is left out.

    JavaScript strings are modelled as [string] (the UTF-8 bytes of the
    text), integer-valued numbers as [Z], and the one place where a
    non-integer number is produced ([rating_sum / rating_count]) as a
    binary64 value with its rounding written out.  A handler runs to
    its end before the next one starts; the list reload a handler
    starts without awaiting it is run as its last step. *)

From Stdlib Require Import ZArith List String Ascii Bool Lia.
From Stdlib Require Import DecimalString.
From Stdlib Require Import Floats Uint63.
From Stdlib Require Import Sorting.Sorted Sorting.Permutation DecimalZ.
Import ListNotations.

Local Open Scope string_scope.
Local Open Scope Z_scope.

(** ** JavaScript strings *)

Module JsString.

(** [s.split(sep)] for a one-character separator: the segments between
    the occurrences of [sep]; never the empty array. *)
Fixpoint split (sep : ascii) (s : string) : list string :=
  match s with
  | EmptyString => [EmptyString]
  | String c rest =>
      if Ascii.eqb c sep then EmptyString :: split sep rest
      else match split sep rest with
           | [] => [String c EmptyString]
           | seg :: segs => String c seg :: segs
           end
  end.

(** [arr.pop()]: the last element, [undefined] ([None]) on the empty
    array. *)
Fixpoint pop (arr : list string) : option string :=
  match arr with
  | [] => None
  | [x] => Some x
  | _ :: tl => pop tl
  end.

Definition is_upper (c : ascii) : bool :=
  let n := nat_of_ascii c in (65 <=? n)%nat && (n <=? 90)%nat.

Definition lower_char (c : ascii) : ascii :=
  if is_upper c then ascii_of_nat (nat_of_ascii c + 32) else c.

(** [s.toLowerCase()].  Only the letters A-Z are mapped: the bytes of
    a non-ASCII character are left alone, and no non-ASCII character
    lower-cases to a string made of the letters that occur in the
    extensions [getFileType] looks for. *)
Fixpoint toLowerCase (s : string) : string :=
  match s with
  | EmptyString => EmptyString
  | String c rest => String (lower_char c) (toLowerCase rest)
  end.

(** [arr.includes(x)] on an array of strings. *)
Definition includes (arr : list string) (x : string) : bool :=
  existsb (String.eqb x) arr.

(** Does the character occur in the string? *)
Fixpoint contains (c : ascii) (s : string) : bool :=
  match s with
  | EmptyString => false
  | String d rest => Ascii.eqb d c || contains c rest
  end.

(** [String(n)] / [`${n}`] for an integer-valued number below 1e21:
    its decimal digits, with a leading minus sign when negative. *)
Definition of_int (n : Z) : string :=
  NilZero.string_of_int (Z.to_int n).

End JsString.

(** ** JavaScript arrays *)

Module JsArray.

(** Where [x] goes in a sorted array, for a comparator in the style of
    [Array.prototype.sort] (negative: first argument first): before the
    first element it does not have to follow. *)
Fixpoint insert {A : Type} (cmp : A -> A -> Z) (x : A) (l : list A) : list A :=
  match l with
  | [] => [x]
  | y :: l' => if cmp x y <=? 0 then x :: y :: l' else y :: insert cmp x l'
  end.

(** [[...arr].sort(cmp)].  The sort of the language is stable, so for
    a consistent comparator its result is the one arrangement in
    comparator order that keeps equal elements in their original order;
    insertion from the right end computes it. *)
Fixpoint sort {A : Type} (cmp : A -> A -> Z) (arr : list A) : list A :=
  match arr with
  | [] => []
  | x :: rest => insert cmp x (sort cmp rest)
  end.

(** [arr.slice(0, n)] *)
Definition slice0 {A : Type} (n : nat) (arr : list A) : list A := firstn n arr.

(** [tags.includes(tag) ? tags.filter(t => t !== tag) : [...tags, tag]],
    the body of the three tag togglers. *)
Definition toggle (tag : string) (tags : list string) : list string :=
  if JsString.includes tags tag
  then filter (fun t => negb (String.eqb t tag)) tags
  else (tags ++ [tag])%list.

End JsArray.

(** ** [src/lib/storage.ts]: file classification *)

Inductive FileType : Type :=
| image
| pdf
| link.

Definition image_extensions : list string :=
  ["jpg"; "jpeg"; "png"; "gif"; "webp"].

(** [fileName.split('.').pop()]: the text after the last dot, and the
    whole name when it has no dot. *)
Definition fileExt (fileName : string) : option string :=
  JsString.pop (JsString.split "." fileName).

(** [const ext = fileName.split('.').pop()?.toLowerCase() || '';] *)
Definition lowered_ext (fileName : string) : string :=
  match fileExt fileName with
  | Some e => JsString.toLowerCase e
  | None => ""
  end.

Definition getFileType (fileName : string) : FileType :=
  let ext := lowered_ext fileName in
  if JsString.includes image_extensions ext then image
  else if String.eqb ext "pdf" then pdf
  else link.

(** ** JavaScript numbers

    Every number the handlers below read or write is integer-valued and
    comes from an SQL [integer] column or a small literal, so it is
    modelled as a [Z] (binary64 represents every integer up to 2^53
    exactly and adds them exactly).  The quotient
    [rating_sum / rating_count] is the one non-integer value; it is a
    binary64 number, obtained by rounding the exact quotient to 53
    significant bits, ties to even. *)

Module JsNumber.

(** A binary64 value: [Fin s m e] stands for (-1)^s * m * 2^e. *)
Inductive number : Type :=
| Fin (negative : bool) (mant : Z) (expo : Z)
| Infinity (negative : bool)
| NaN.

(** [n / d] rounded to the nearest integer, ties to the even one
    ([0 < d]). *)
Definition round_half_even (n d : Z) : Z :=
  let q := n / d in
  let r := n mod d in
  if 2 * r <? d then q
  else if d <? 2 * r then q + 1
  else if Z.even q then q
  else q + 1.

(** The scaling [k] for which [2^52 <= a * 2^k / b < 2^53]
    ([0 < a], [0 < b]). *)
Definition quot_shift (a b : Z) : Z :=
  let k := 52 - Z.log2 a + Z.log2 b in
  if a * 2 ^ Z.max k 0 <? b * 2 ^ Z.max (- k) 0 * 2 ^ 52 then k + 1 else k.

(** The 53-bit significand of [a / b] at scaling [k]. *)
Definition quot_mant (a b k : Z) : Z :=
  round_half_even (a * 2 ^ Z.max k 0) (b * 2 ^ Z.max (- k) 0).

(** [a / b] on integer-valued numbers of magnitude at most 2^53. *)
Definition div (a b : Z) : number :=
  let s := xorb (a <? 0) (b <? 0) in
  if b =? 0 then
    if a =? 0 then NaN else Infinity (a <? 0)
  else if a =? 0 then Fin s 0 0
  else
    let k := quot_shift (Z.abs a) (Z.abs b) in
    Fin s (quot_mant (Z.abs a) (Z.abs b) k) (- k).

(** The integer [n] for which [n / 10] is closest to [m * 2^e]; of two
    such, the larger ([Number.prototype.toFixed], step 10.a). *)
Definition tenths (m e : Z) : Z :=
  let num := m * 2 ^ Z.max e 0 in
  let den := 2 ^ Z.max (- e) 0 in
  (20 * num + den) / (2 * den).

(** The digits of [n] with a point before the last one. *)
Definition render_tenths (n : Z) : string :=
  JsString.of_int (n / 10) ++ "." ++ JsString.of_int (n mod 10).

(** [x.toFixed(1)], for [x] below 1e21 in magnitude. *)
Definition toFixed1 (x : number) : string :=
  match x with
  | NaN => "NaN"
  | Infinity s => if s then "-Infinity" else "Infinity"
  | Fin s m e =>
      (if s && (0 <? m) then "-" else "") ++ render_tenths (tenths m e)
  end.

(** The same value in the format of the binary64 numbers built into
    the proof assistant, to compare the division above with theirs:
    significands are kept in [2^52, 2^53). *)
Definition to_spec_float (x : number) : spec_float :=
  match x with
  | NaN => S754_nan
  | Infinity s => S754_infinity s
  | Fin s m e =>
      if m =? 0 then S754_zero s
      else if m =? 2 ^ 53 then S754_finite s (Z.to_pos (2 ^ 52)) (e + 1)
      else S754_finite s (Z.to_pos m) e
  end.

(** The built-in binary64 quotient of two non-negative integers. *)
Definition binary64_div (a b : Z) : spec_float :=
  Prim2SF (PrimFloat.div (PrimFloat.of_uint63 (Uint63.of_Z a))
                         (PrimFloat.of_uint63 (Uint63.of_Z b))).

Definition same_spec_float (x y : spec_float) : bool :=
  match x, y with
  | S754_zero s, S754_zero s' => Bool.eqb s s'
  | S754_infinity s, S754_infinity s' => Bool.eqb s s'
  | S754_nan, S754_nan => true
  | S754_finite s m e, S754_finite s' m' e' =>
      Bool.eqb s s' && Pos.eqb m m' && (e =? e')
  | _, _ => false
  end.

Definition agrees_with_binary64 (a b : Z) : bool :=
  same_spec_float (to_spec_float (div a b)) (binary64_div a b).

(** The integers [lo, lo + step, ...], [n] of them. *)
Fixpoint sample_range (lo step : Z) (n : nat) : list Z :=
  match n with
  | O => []
  | S n' => lo :: sample_range (lo + step) step n'
  end.

End JsNumber.

(** ** Rows of the content repository

    One module per table of [supabase/migrations]; the fields keep the
    column names.  Text columns that may be NULL or [undefined] on the
    client ([image_url], [file_url], [file_type], [file_name]) hold the
    empty string for the absent value, which is what the client tests
    for (a falsy value). *)

Module GameIdea.
Record form : Type := mkForm
  { f_title : string; f_genre : string; f_category : string;
    f_summary : string; f_tags : list string }.
Record t : Type := mk
  { id : string; creator_id : string; fields : form;
    upvotes : Z; view_count : Z }.
Definition empty_form : form := mkForm "" "" "Story" "" [].
(** [{ ...prev, tags }] *)
Definition with_tags (l : list string) (f : form) : form :=
  mkForm (f_title f) (f_genre f) (f_category f) (f_summary f) l.
Definition with_upvotes (n : Z) (r : t) : t :=
  mk (id r) (creator_id r) (fields r) n (view_count r).
End GameIdea.

Module MediaPost.
Record form : Type := mkForm
  { f_title : string; f_content : string; f_category : string }.
Record t : Type := mk
  { id : string; author_id : string; fields : form;
    upvotes : Z; view_count : Z }.
Definition empty_form : form := mkForm "" "" "Game News".
Definition with_upvotes (n : Z) (r : t) : t :=
  mk (id r) (author_id r) (fields r) n (view_count r).
End MediaPost.

Module Project.
Record form : Type := mkForm
  { f_title : string; f_description : string; f_stage : string }.
Record t : Type := mk
  { id : string; creator_id : string; fields : form;
    rating_sum : Z; rating_count : Z }.
Definition empty_form : form := mkForm "" "" "Idea".
Definition with_rating (s c : Z) (r : t) : t :=
  mk (id r) (creator_id r) (fields r) s c.
End Project.

Module Feedback.
Record t : Type := mk
  { id : string; project_id : string; user_id : string;
    content : string; rating : Z }.
End Feedback.

(** The columns [image_url], [file_url], [file_type] and [file_name] of
    [portfolio_items] are nullable.  A field holds the empty string for
    an absent value, in the form as in a row, so a stored NULL and a
    stored empty string are one value here; nothing below tells them
    apart. *)
Module PortfolioItem.
Record form : Type := mkForm
  { title : string; description : string; image_url : string;
    file_url : string; file_type : string; file_name : string;
    tags : list string }.
Record t : Type := mk
  { id : string; user_id : string; fields : form }.
Definition empty_form : form := mkForm "" "" "" "" "" "" [].
(** [{ ...prev, tags }] *)
Definition with_tags (l : list string) (f : form) : form :=
  mkForm (title f) (description f) (image_url f) (file_url f) (file_type f)
    (file_name f) l.
(** [{ ...form, file_url, file_type, file_name }] *)
Definition with_file (url type name : string) (f : form) : form :=
  mkForm (title f) (description f) (image_url f) url type name (tags f).
End PortfolioItem.

Module File.
Record t : Type := mk { name : string; content : string }.
End File.

Module User.
Record t : Type := mk { id : string }.
End User.

(** ** The external services

    The client talks to two services: the content repository (insert,
    update, delete and select on tables) and the object store (bucket
    [portfolio_uploads]).  [Call] lists the requests the handlers
    issue. *)

Inductive UpvoteTable : Type :=
| game_ideas
| media_posts.

Inductive Call : Type :=
| Select (table : string)
| InsertIdea (f : GameIdea.form) (creator_id : string)
| InsertPost (f : MediaPost.form) (author_id : string)
| InsertProject (f : Project.form) (creator_id : string)
| InsertFeedback (project_id user_id content : string) (rating : Z)
| InsertPortfolio (f : PortfolioItem.form) (user_id : string)
| UpdateUpvotes (table : UpvoteTable) (id : string) (upvotes : Z)
| UpdateRating (id : string) (rating_sum rating_count : Z)
| UpdatePortfolio (id : string) (f : PortfolioItem.form)
| UpdateBio (id : string) (bio : string)
| DeletePortfolio (id : string)
| StorageUpload (path : string) (file : File.t)
| StorageRemove (paths : list string).

(** The calls that change stored state when they succeed. *)
Definition is_write (c : Call) : bool :=
  match c with
  | Select _ => false
  | _ => true
  end.

Definition is_storage_remove (c : Call) : bool :=
  match c with
  | StorageRemove _ => true
  | _ => false
  end.

Module Backend.

Record t : Type := mk
  { ideas : list GameIdea.t;
    posts : list MediaPost.t;
    projects : list Project.t;
    project_feedback : list Feedback.t;
    portfolio_items : list PortfolioItem.t;
    bios : list (string * string);
    bucket : list (string * File.t);
    next_id : Z }.

(** The identifier the store gives a new row (the columns default to
    [gen_random_uuid()]; a counter stands for it). *)
Definition fresh_id (b : t) : string := "row-" ++ JsString.of_int (next_id b).

Definition has_key (path : string) (b : t) : bool :=
  existsb (fun kv => String.eqb (fst kv) path) (bucket b).

(** [rating integer CHECK (rating >= 1 AND rating <= 5)] *)
Definition rating_check (rating : Z) : bool :=
  (1 <=? rating) && (rating <=? 5).

(** What a request does to the stored state; [None] when the service
    answers with an error: the CHECK constraint of [project_feedback]
    fails, or an upload meets an existing key ([upsert: false]).
    Tables are kept newest first, the order the [select]s of the
    client ask for.  The row-level access policies of the migrations are
    not part of this model (the specification leaves them to the
    store): a request is served as for a caller entitled to it.  Nor
    are the foreign key of [project_feedback.project_id] and the range
    of the [integer] columns.  [Policy] below states these conditions;
    a property about what a write stores assumes them where the
    handler can be reached without them. *)
Definition serve (c : Call) (b : t) : option t :=
  match c with
  | Select _ => Some b
  | InsertIdea f u =>
      Some (mk (GameIdea.mk (fresh_id b) u f 0 0 :: ideas b) (posts b)
               (projects b) (project_feedback b) (portfolio_items b)
               (bios b) (bucket b) (next_id b + 1))
  | InsertPost f u =>
      Some (mk (ideas b) (MediaPost.mk (fresh_id b) u f 0 0 :: posts b)
               (projects b) (project_feedback b) (portfolio_items b)
               (bios b) (bucket b) (next_id b + 1))
  | InsertProject f u =>
      Some (mk (ideas b) (posts b)
               (Project.mk (fresh_id b) u f 0 0 :: projects b)
               (project_feedback b) (portfolio_items b)
               (bios b) (bucket b) (next_id b + 1))
  | InsertFeedback p u txt r =>
      if rating_check r then
        Some (mk (ideas b) (posts b) (projects b)
                 (Feedback.mk (fresh_id b) p u txt r :: project_feedback b)
                 (portfolio_items b) (bios b) (bucket b) (next_id b + 1))
      else None
  | InsertPortfolio f u =>
      Some (mk (ideas b) (posts b) (projects b) (project_feedback b)
               (PortfolioItem.mk (fresh_id b) u f :: portfolio_items b)
               (bios b) (bucket b) (next_id b + 1))
  | UpdateUpvotes game_ideas i n =>
      Some (mk (map (fun r => if String.eqb (GameIdea.id r) i
                              then GameIdea.with_upvotes n r else r)
                    (ideas b))
               (posts b) (projects b) (project_feedback b)
               (portfolio_items b) (bios b) (bucket b) (next_id b))
  | UpdateUpvotes media_posts i n =>
      Some (mk (ideas b)
               (map (fun r => if String.eqb (MediaPost.id r) i
                              then MediaPost.with_upvotes n r else r)
                    (posts b))
               (projects b) (project_feedback b)
               (portfolio_items b) (bios b) (bucket b) (next_id b))
  | UpdateRating i s n =>
      Some (mk (ideas b) (posts b)
               (map (fun r => if String.eqb (Project.id r) i
                              then Project.with_rating s n r else r)
                    (projects b))
               (project_feedback b) (portfolio_items b)
               (bios b) (bucket b) (next_id b))
  | UpdatePortfolio i f =>
      Some (mk (ideas b) (posts b) (projects b) (project_feedback b)
               (map (fun r => if String.eqb (PortfolioItem.id r) i
                              then PortfolioItem.mk (PortfolioItem.id r)
                                     (PortfolioItem.user_id r) f
                              else r)
                    (portfolio_items b))
               (bios b) (bucket b) (next_id b))
  | UpdateBio i bio =>
      Some (mk (ideas b) (posts b) (projects b) (project_feedback b)
               (portfolio_items b)
               (map (fun kv => if String.eqb (fst kv) i then (i, bio) else kv)
                    (bios b))
               (bucket b) (next_id b))
  | DeletePortfolio i =>
      Some (mk (ideas b) (posts b) (projects b) (project_feedback b)
               (filter (fun r => negb (String.eqb (PortfolioItem.id r) i))
                       (portfolio_items b))
               (bios b) (bucket b) (next_id b))
  | StorageUpload path file =>
      if has_key path b then None
      else Some (mk (ideas b) (posts b) (projects b) (project_feedback b)
                    (portfolio_items b) (bios b)
                    ((path, file) :: bucket b) (next_id b))
  | StorageRemove paths =>
      Some (mk (ideas b) (posts b) (projects b) (project_feedback b)
               (portfolio_items b) (bios b)
               (filter (fun kv => negb (existsb (String.eqb (fst kv)) paths))
                       (bucket b))
               (next_id b))
  end.

End Backend.

(** ** What the store admits

    The conditions of [supabase/migrations] under which the store
    applies a write as [Backend.serve] does. *)

Module Policy.





End Policy.

(** An error answer of a service: the round trip failed, or the service
    refused the request. *)
Inductive Error : Type :=
| Unavailable (c : Call)
| Rejected (c : Call).

(** What every component sees around it: the signed-in user of the
    authentication context, the two services (with the public address
    the object store gives a key), the clock, and what has been observed
    so far (the requests issued, the errors logged). *)
Module Env.

Record t : Type := mk
  { user : option User.t;
    backend : Backend.t;
    outage : Call -> bool;
    now : Z;
    public_url : string -> string;
    trace : list Call;
    console : list (string * Error) }.

Definition answered (c : Call) (b : Backend.t) (e : t) : t :=
  mk (user e) b (outage e) (now e) (public_url e)
     (trace e ++ [c]) (console e).

Definition logged (msg : string) (err : Error) (e : t) : t :=
  mk (user e) (backend e) (outage e) (now e) (public_url e)
     (trace e) (console e ++ [(msg, err)]).

(** The service is reachable and takes the request. *)
Definition accepted (c : Call) (e : t) : bool :=
  negb (outage e c) &&
  match Backend.serve c (backend e) with
  | Some _ => true
  | None => false
  end.

(** No round trip fails in transit. *)
Definition online (e : t) : Prop := forall c, outage e c = false.

(** One round trip: the request is recorded, and the service either
    applies it or answers with an error and leaves its state alone. *)
Definition request (c : Call) (e : t) : option Error * t :=
  if outage e c then (Some (Unavailable c), answered c (backend e) e)
  else match Backend.serve c (backend e) with
       | Some b' => (None, answered c b' e)
       | None => (Some (Rejected c), answered c (backend e) e)
       end.

End Env.

(** ** Handlers as state transformers

    A handler runs on the state of its component, which contains the
    environment; it returns or throws.  [await] is sequencing: one
    handler runs at a time. *)

Inductive outcome (A : Type) : Type :=
| Returned (a : A)
| Threw (e : Error).

Arguments Returned {A} a.
Arguments Threw {A} e.

Class Component (St : Type) : Type :=
  { env_of : St -> Env.t;
    with_env : Env.t -> St -> St }.

Section Monad.

Context {St : Type} `{Component St}.

Definition M (A : Type) : Type := St -> outcome A * St.

Definition ret {A} (a : A) : M A := fun st => (Returned a, st).

Definition bind {A B} (m : M A) (k : A -> M B) : M B :=
  fun st =>
    match m st with
    | (Returned a, st') => k a st'
    | (Threw e, st') => (Threw e, st')
    end.

Definition throw {A} (e : Error) : M A := fun st => (Threw e, st).

(** [try { body } catch (error) { handler }] *)
Definition try_catch {A} (body : M A) (handler : Error -> M A) : M A :=
  fun st =>
    match body st with
    | (Returned a, st') => (Returned a, st')
    | (Threw e, st') => handler e st'
    end.

(** [try { body } finally { cleanup }] *)
Definition try_finally {A} (body : M A) (cleanup : M unit) : M A :=
  fun st =>
    match body st with
    | (r, st') =>
        match cleanup st' with
        | (Returned _, st'') => (r, st'')
        | (Threw e, st'') => (Threw e, st'')
        end
    end.

Definition get : M St := fun st => (Returned st, st).

Definition modify (f : St -> St) : M unit := fun st => (Returned tt, f st).

Definition read_env : M Env.t := fun st => (Returned (env_of st), st).

(** [const { error } = await supabase...] *)
Definition supabase (c : Call) : M (option Error) :=
  fun st =>
    let (err, e') := Env.request c (env_of st) in
    (Returned err, with_env e' st).

(** [if (error) throw error;] *)
Definition throw_if_error (err : option Error) : M unit :=
  match err with
  | Some e => throw e
  | None => ret tt
  end.

(** [console.error(msg, error)] *)
Definition console_error (msg : string) (err : Error) : M unit :=
  modify (fun st => with_env (Env.logged msg err (env_of st)) st).

(** The state a handler leaves behind. *)
Definition exec {A} (m : M A) (st : St) : St := snd (m st).

Definition result {A} (m : M A) (st : St) : outcome A := fst (m st).

End Monad.

Notation "x <- m ;; k" := (bind m (fun x => k))
  (at level 61, m at next level, right associativity).
Notation "m ;; k" := (bind m (fun _ => k))
  (at level 61, right associativity).

(** A JavaScript string used as a condition. *)
Definition truthy (s : string) : bool := negb (String.eqb s "").


(** ** [src/lib/storage.ts]: the object store *)

Module Storage.

Section WithComponent.

Context {St : Type} `{Component St}.

(** [`${userId}-${Date.now()}.${fileExt}`]; an [undefined] extension
    would print as the text "undefined". *)
Definition stored_name (userId : string) (now : Z) (name : string) : string :=
  userId ++ "-" ++ JsString.of_int now ++ "." ++
  match fileExt name with
  | Some e => e
  | None => "undefined"
  end.

(** [`${userId}/${fileName}`] *)
Definition file_path (userId fileName : string) : string :=
  userId ++ "/" ++ fileName.

(** [supabase.storage.from('portfolio_uploads').getPublicUrl(path)] *)
Definition getPublicUrl (e : Env.t) (path : string) : string :=
  Env.public_url e path.

Definition uploadPortfolioFile (file : File.t) (userId : string)
  : M (string * string) :=
  e <- read_env ;;
  let fileName := stored_name userId (Env.now e) (File.name file) in
  let filePath := file_path userId fileName in
  uploadError <- supabase (StorageUpload filePath file) ;;
  throw_if_error uploadError ;;
  ret (getPublicUrl e filePath, File.name file).

Definition deletePortfolioFile (userId fileName : string) : M unit :=
  let filePath := file_path userId fileName in
  error <- supabase (StorageRemove [filePath]) ;;
  throw_if_error error.

End WithComponent.

End Storage.

(** ** [src/components/sections/IdeasHub.tsx] *)

Module IdeasHub.

Record state : Type := mk
  { env : Env.t;
    ideas : list GameIdea.t;
    loading : bool;
    showForm : bool;
    formData : GameIdea.form }.

#[export] Instance component : Component state :=
  {| env_of := env;
     with_env e st := mk e (ideas st) (loading st) (showForm st) (formData st) |}.

Definition setIdeas (l : list GameIdea.t) (st : state) : state :=
  mk (env st) l (loading st) (showForm st) (formData st).
Definition setLoading (b : bool) (st : state) : state :=
  mk (env st) (ideas st) b (showForm st) (formData st).
Definition setShowForm (b : bool) (st : state) : state :=
  mk (env st) (ideas st) (loading st) b (formData st).
Definition setFormData (f : GameIdea.form) (st : state) : state :=
  mk (env st) (ideas st) (loading st) (showForm st) f.

Definition loadIdeas : M unit :=
  try_finally
    (try_catch
       (error <- supabase (Select "game_ideas") ;;
        throw_if_error error ;;
        e <- read_env ;;
        modify (setIdeas (Backend.ideas (Env.backend e))))
       (console_error "Error loading ideas:"))
    (modify (setLoading false)).

Definition handleSubmit : M unit :=
  st <- get ;;
  match Env.user (env st) with
  | None => ret tt
  | Some user =>
      try_catch
        (error <- supabase (InsertIdea (formData st) (User.id user)) ;;
         throw_if_error error ;;
         modify (setFormData GameIdea.empty_form) ;;
         modify (setShowForm false) ;;
         loadIdeas)
        (console_error "Error creating idea:")
  end.

Definition handleUpvote (ideaId : string) (currentUpvotes : Z) : M unit :=
  try_catch
    (error <- supabase (UpdateUpvotes game_ideas ideaId (currentUpvotes + 1)) ;;
     throw_if_error error ;;
     loadIdeas)
    (console_error "Error upvoting:").

Definition toggleTag (tag : string) : M unit :=
  modify (fun st =>
            setFormData
              (GameIdea.with_tags
                 (JsArray.toggle tag (GameIdea.f_tags (formData st)))
                 (formData st))
              st).

End IdeasHub.

(** ** [src/components/sections/CommunityMedia.tsx] *)

Module CommunityMedia.

Record state : Type := mk
  { env : Env.t;
    posts : list MediaPost.t;
    loading : bool;
    showForm : bool;
    formData : MediaPost.form }.

#[export] Instance component : Component state :=
  {| env_of := env;
     with_env e st := mk e (posts st) (loading st) (showForm st) (formData st) |}.

Definition setPosts (l : list MediaPost.t) (st : state) : state :=
  mk (env st) l (loading st) (showForm st) (formData st).
Definition setLoading (b : bool) (st : state) : state :=
  mk (env st) (posts st) b (showForm st) (formData st).
Definition setShowForm (b : bool) (st : state) : state :=
  mk (env st) (posts st) (loading st) b (formData st).
Definition setFormData (f : MediaPost.form) (st : state) : state :=
  mk (env st) (posts st) (loading st) (showForm st) f.

Definition loadPosts : M unit :=
  try_finally
    (try_catch
       (error <- supabase (Select "media_posts") ;;
        throw_if_error error ;;
        e <- read_env ;;
        modify (setPosts (Backend.posts (Env.backend e))))
       (console_error "Error loading posts:"))
    (modify (setLoading false)).

Definition handleSubmit : M unit :=
  st <- get ;;
  match Env.user (env st) with
  | None => ret tt
  | Some user =>
      try_catch
        (error <- supabase (InsertPost (formData st) (User.id user)) ;;
         throw_if_error error ;;
         modify (setFormData MediaPost.empty_form) ;;
         modify (setShowForm false) ;;
         loadPosts)
        (console_error "Error creating post:")
  end.

Definition handleUpvote (postId : string) (currentUpvotes : Z) : M unit :=
  try_catch
    (error <- supabase (UpdateUpvotes media_posts postId (currentUpvotes + 1)) ;;
     throw_if_error error ;;
     loadPosts)
    (console_error "Error upvoting:").

(** [[...posts].sort((a, b) => b.upvotes - a.upvotes).slice(0, 5)] *)
Definition trendingPosts (posts : list MediaPost.t) : list MediaPost.t :=
  JsArray.slice0 5
    (JsArray.sort (fun a b => MediaPost.upvotes b - MediaPost.upvotes a) posts).

End CommunityMedia.

(** ** The collaboration zone (second document of [IdeasHub.tsx]) *)

(** What [getAverageRating] hands to the view: the number [0], or the
    string [toFixed] produced. *)
Inductive JsValue : Type :=
| Num (n : Z)
| Str (s : string).

Module CollaborationZone.

Record state : Type := mk
  { env : Env.t;
    projects : list Project.t;
    loading : bool;
    showProjectForm : bool;
    selectedProject : option string;
    feedbackText : string;
    rating : Z;
    projectFormData : Project.form }.

#[export] Instance component : Component state :=
  {| env_of := env;
     with_env e st :=
       mk e (projects st) (loading st) (showProjectForm st)
          (selectedProject st) (feedbackText st) (rating st)
          (projectFormData st) |}.

Definition setProjects (l : list Project.t) (st : state) : state :=
  mk (env st) l (loading st) (showProjectForm st) (selectedProject st)
     (feedbackText st) (rating st) (projectFormData st).
Definition setLoading (b : bool) (st : state) : state :=
  mk (env st) (projects st) b (showProjectForm st) (selectedProject st)
     (feedbackText st) (rating st) (projectFormData st).
Definition setShowProjectForm (b : bool) (st : state) : state :=
  mk (env st) (projects st) (loading st) b (selectedProject st)
     (feedbackText st) (rating st) (projectFormData st).
Definition setSelectedProject (p : option string) (st : state) : state :=
  mk (env st) (projects st) (loading st) (showProjectForm st) p
     (feedbackText st) (rating st) (projectFormData st).
Definition setFeedbackText (s : string) (st : state) : state :=
  mk (env st) (projects st) (loading st) (showProjectForm st)
     (selectedProject st) s (rating st) (projectFormData st).
Definition setRating (r : Z) (st : state) : state :=
  mk (env st) (projects st) (loading st) (showProjectForm st)
     (selectedProject st) (feedbackText st) r (projectFormData st).
Definition setProjectFormData (f : Project.form) (st : state) : state :=
  mk (env st) (projects st) (loading st) (showProjectForm st)
     (selectedProject st) (feedbackText st) (rating st) f.

Definition loadProjects : M unit :=
  try_finally
    (try_catch
       (error <- supabase (Select "projects") ;;
        throw_if_error error ;;
        e <- read_env ;;
        modify (setProjects (Backend.projects (Env.backend e))))
       (console_error "Error loading projects:"))
    (modify (setLoading false)).

Definition handleProjectSubmit : M unit :=
  st <- get ;;
  match Env.user (env st) with
  | None => ret tt
  | Some user =>
      try_catch
        (error <- supabase (InsertProject (projectFormData st) (User.id user)) ;;
         throw_if_error error ;;
         modify (setProjectFormData Project.empty_form) ;;
         modify (setShowProjectForm false) ;;
         loadProjects)
        (console_error "Error creating project:")
  end.

(** [projects.find(p => p.id === selectedProject)] *)
Definition find_project (l : list Project.t) (i : string) : option Project.t :=
  find (fun p => String.eqb (Project.id p) i) l.

Definition handleFeedbackSubmit : M unit :=
  st <- get ;;
  match Env.user (env st), selectedProject st with
  | Some user, Some selected =>
      if truthy selected then
        try_catch
          (error <- supabase (InsertFeedback selected (User.id user)
                                (feedbackText st) (rating st)) ;;
           throw_if_error error ;;
           match find_project (projects st) selected with
           | Some project =>
               _ <- supabase (UpdateRating selected
                                (Project.rating_sum project + rating st)
                                (Project.rating_count project + 1)) ;;
               ret tt
           | None => ret tt
           end ;;
           modify (setFeedbackText "") ;;
           modify (setRating 5) ;;
           modify (setSelectedProject None) ;;
           loadProjects)
          (console_error "Error submitting feedback:")
      else ret tt
  | _, _ => ret tt
  end.

Definition getAverageRating (project : Project.t) : JsValue :=
  if Project.rating_count project =? 0 then Num 0
  else Str (JsNumber.toFixed1
                    (JsNumber.div (Project.rating_sum project)
                                  (Project.rating_count project))).

End CollaborationZone.

(** ** [src/components/Profile.tsx] *)

(** The [fileType] argument of [handleFileUpload]: ['image' | 'pdf']. *)
Inductive UploadKind : Type :=
| upload_image
| upload_pdf.

Definition UploadKind_name (k : UploadKind) : string :=
  match k with
  | upload_image => "image"
  | upload_pdf => "pdf"
  end.

Definition FileType_name (k : FileType) : string :=
  match k with
  | image => "image"
  | pdf => "pdf"
  | link => "link"
  end.

Module Profile.

Record state : Type := mk
  { env : Env.t;
    isEditing : bool;
    portfolioItems : list PortfolioItem.t;
    showPortfolioForm : bool;
    editingItem : option PortfolioItem.t;
    bio : string;
    portfolioFormData : PortfolioItem.form;
    uploadingFile : bool }.

#[export] Instance component : Component state :=
  {| env_of := env;
     with_env e st :=
       mk e (isEditing st) (portfolioItems st) (showPortfolioForm st)
          (editingItem st) (bio st) (portfolioFormData st)
          (uploadingFile st) |}.

Definition setIsEditing (b : bool) (st : state) : state :=
  mk (env st) b (portfolioItems st) (showPortfolioForm st)
     (editingItem st) (bio st) (portfolioFormData st) (uploadingFile st).
Definition setPortfolioItems (l : list PortfolioItem.t) (st : state) : state :=
  mk (env st) (isEditing st) l (showPortfolioForm st)
     (editingItem st) (bio st) (portfolioFormData st) (uploadingFile st).
Definition setShowPortfolioForm (b : bool) (st : state) : state :=
  mk (env st) (isEditing st) (portfolioItems st) b
     (editingItem st) (bio st) (portfolioFormData st) (uploadingFile st).
Definition setEditingItem (i : option PortfolioItem.t) (st : state) : state :=
  mk (env st) (isEditing st) (portfolioItems st) (showPortfolioForm st)
     i (bio st) (portfolioFormData st) (uploadingFile st).
Definition setPortfolioFormData (f : PortfolioItem.form) (st : state) : state :=
  mk (env st) (isEditing st) (portfolioItems st) (showPortfolioForm st)
     (editingItem st) (bio st) f (uploadingFile st).
Definition setUploadingFile (b : bool) (st : state) : state :=
  mk (env st) (isEditing st) (portfolioItems st) (showPortfolioForm st)
     (editingItem st) (bio st) (portfolioFormData st) b.

Definition loadPortfolioItems : M unit :=
  st <- get ;;
  match Env.user (env st) with
  | None => ret tt
  | Some user =>
      try_catch
        (error <- supabase (Select "portfolio_items") ;;
         throw_if_error error ;;
         e <- read_env ;;
         modify (setPortfolioItems
                   (filter (fun r => String.eqb (PortfolioItem.user_id r)
                                                (User.id user))
                           (Backend.portfolio_items (Env.backend e)))))
        (console_error "Error loading portfolio:")
  end.

Definition handleProfileUpdate : M unit :=
  st <- get ;;
  match Env.user (env st) with
  | None => ret tt
  | Some user =>
      try_catch
        (error <- supabase (UpdateBio (User.id user) (bio st)) ;;
         throw_if_error error ;;
         modify (setIsEditing false))
        (console_error "Error updating profile:")
  end.

Definition handlePortfolioSubmit : M unit :=
  st <- get ;;
  match Env.user (env st) with
  | None => ret tt
  | Some user =>
      try_catch
        (match editingItem st with
         | Some item =>
             error <- supabase (UpdatePortfolio (PortfolioItem.id item)
                                  (portfolioFormData st)) ;;
             throw_if_error error
         | None =>
             error <- supabase (InsertPortfolio (portfolioFormData st)
                                  (User.id user)) ;;
             throw_if_error error
         end ;;
         modify (setPortfolioFormData PortfolioItem.empty_form) ;;
         modify (setEditingItem None) ;;
         modify (setShowPortfolioForm false) ;;
         loadPortfolioItems)
        (console_error "Error saving portfolio item:")
  end.

Definition handleDeletePortfolioItem (id : string) : M unit :=
  try_catch
    (error <- supabase (DeletePortfolio id) ;;
     throw_if_error error ;;
     loadPortfolioItems)
    (console_error "Error deleting portfolio item:").


(** [file] is [e.target.files?.[0]]. *)
Definition handleFileUpload (file : option File.t) (fileType : UploadKind)
  : M unit :=
  st <- get ;;
  match file, Env.user (env st) with
  | Some file, Some user =>
      modify (setUploadingFile true) ;;
      try_finally
        (try_catch
           (uploaded <- Storage.uploadPortfolioFile file (User.id user) ;;
            let (url, fileName) := uploaded : string * string in
            modify (setPortfolioFormData
                      (PortfolioItem.with_file url (UploadKind_name fileType)
                         fileName (portfolioFormData st))))
           (console_error "Error uploading file:"))
        (modify (setUploadingFile false))
  | _, _ => ret tt
  end.

(** [url] is the answer of the prompt, [None] when it is dismissed. *)
Definition handleAddLink (url : option string) : M unit :=
  st <- get ;;
  match url with
  | Some url =>
      if truthy url then
        modify (setPortfolioFormData
                  (PortfolioItem.with_file url "link" url (portfolioFormData st)))
      else ret tt
  | None => ret tt
  end.

Definition handleClearFile : M unit :=
  st <- get ;;
  let form := portfolioFormData st in
  match Env.user (env st) with
  | Some user =>
      if truthy (PortfolioItem.file_name form)
         && negb (String.eqb (PortfolioItem.file_type form) "link")
      then
        try_catch
          (Storage.deletePortfolioFile (User.id user)
             (PortfolioItem.file_name form))
          (console_error "Error deleting file:")
      else ret tt
  | None => ret tt
  end ;;
  modify (setPortfolioFormData (PortfolioItem.with_file "" "" "" form)).

Definition togglePortfolioTag (tag : string) : M unit :=
  modify (fun st =>
            setPortfolioFormData
              (PortfolioItem.with_tags
                 (JsArray.toggle tag (PortfolioItem.tags (portfolioFormData st)))
                 (portfolioFormData st))
              st).

End Profile.

(** ** The application shell ([App.tsx]) *)

Module App.

Inductive section : Type :=
| IdeasHubView
| CommunityMediaView
| EventsSectionView
| CollaborationZoneView.

Inductive view : Type :=
| LoadingView
| AuthView
| ProfileView
| LayoutView (s : section).

(** [renderSection]: the [switch] on [activeSection]. *)
Definition renderSection (activeSection : string) : section :=
  if String.eqb activeSection "ideas" then IdeasHubView
  else if String.eqb activeSection "media" then CommunityMediaView
  else if String.eqb activeSection "events" then EventsSectionView
  else if String.eqb activeSection "collaboration" then CollaborationZoneView
  else IdeasHubView.

(** What [AppContent] renders. *)
Definition AppContent (user : option User.t) (loading : bool)
           (activeSection : string) (showProfile : bool) : view :=
  if loading then LoadingView
  else match user with
       | None => AuthView
       | Some _ =>
           if showProfile then ProfileView
           else LayoutView (renderSection activeSection)
       end.

End App.

(** ** Reading the stored state *)


(** The stored row of a project. *)
Definition stored_project (b : Backend.t) (projectId : string) : option Project.t :=
  CollaborationZone.find_project (Backend.projects b) projectId.

(** ** The specification's words *)

Module Spec.

(** "[num / den] rounded to 1 decimal": [n / 10] is a multiple of one
    tenth nearest to the exact quotient (at an exact tie, either
    neighbour). *)
Definition rounded_to_1_decimal (num den n : Z) : Prop :=
  2 * Z.abs (10 * num - n * den) <= den.

(** "classify": the kind named by the lower-cased extension. *)
Definition kind_of_ext (ext : string) : FileType :=
  if JsString.includes image_extensions ext then image
  else if String.eqb ext "pdf" then pdf
  else link.

(** A file name has an extension when it contains a dot. *)
Definition has_extension (fileName : string) : bool :=
  JsString.contains "." fileName.

(** The bound of an SQL [integer] column. *)
Definition sql_integer_max : Z := 2 ^ 31 - 1.

(** "The project with id [i]" of a list: the first entry with that
    id. *)
Definition project_with_id (l : list Project.t) (i : string) (p : Project.t) : Prop :=
  exists before after,
    l = (before ++ p :: after)%list /\
    Project.id p = i /\
    Forall (fun q => Project.id q <> i) before.

(** "No project with id [i]" in a list. *)
Definition no_project_with_id (l : list Project.t) (i : string) : Prop :=
  Forall (fun q => Project.id q <> i) l.

(** Reading a displayed number with one decimal: decimal digits, a
    point, one decimal digit; the value is given in tenths. *)
Definition is_digit (c : ascii) : bool :=
  let n := nat_of_ascii c in (48 <=? n)%nat && (n <=? 57)%nat.

Fixpoint all_digits (s : string) : bool :=
  match s with
  | EmptyString => true
  | String c rest => is_digit c && all_digits rest
  end.

Definition digit_value (c : ascii) : Z := Z.of_nat (nat_of_ascii c) - 48.

Fixpoint digits_value (acc : Z) (s : string) : Z :=
  match s with
  | EmptyString => acc
  | String c rest => digits_value (10 * acc + digit_value c) rest
  end.

Fixpoint cut_at_point (s : string) : option (string * string) :=
  match s with
  | EmptyString => None
  | String c rest =>
      if Ascii.eqb c "." then Some (EmptyString, rest)
      else match cut_at_point rest with
           | Some (a, b) => Some (String c a, b)
           | None => None
           end
  end.

Definition read_decimal1 (text : string) : option Z :=
  match cut_at_point text with
  | Some (String c whole, String d EmptyString) =>
      if all_digits (String c whole) && is_digit d
      then Some (10 * digits_value 0 (String c whole) + digit_value d)
      else None
  | _ => None
  end.

End Spec.

(** ** Sample states *)

Module Sample.

Definition u1 : User.t := User.mk "u1".

Definition cdn (path : string) : string := "https://cdn.example/" ++ path.

Definition always_up (c : Call) : bool := false.

Definition art_png : File.t := File.mk "art.png" "<png bytes>".
Definition notes_txt : File.t := File.mk "notes.txt" "<text>".

Definition idea1 : GameIdea.t :=
  GameIdea.mk "row-1" "u2" (GameIdea.mkForm "Maze" "Puzzle" "Story" "A maze." []) 7 0.

Definition project1 : Project.t :=
  Project.mk "row-2" "u2" (Project.mkForm "Engine" "A small engine." "Beta") 10 3.

(** A portfolio item of [u1] holding an uploaded image. *)
Definition item1 : PortfolioItem.t :=
  PortfolioItem.mk "row-3" "u1"
    (PortfolioItem.mkForm "Sketch" "Concept art." ""
       (cdn "u1/u1-1700000000000.png") "image" "art.png" []).

Definition store : Backend.t :=
  Backend.mk [idea1] [] [project1] [] [item1] [("u1", "hello")]
    [("u1/u1-1700000000000.png", art_png)] 4.

Definition empty_store : Backend.t := Backend.mk [] [] [] [] [] [] [] 1.

Definition env_of_user (user : option User.t) (b : Backend.t) : Env.t :=
  Env.mk user b always_up 1700000000000 cdn [] [].

Definition ideas_hub (user : option User.t) : IdeasHub.state :=
  IdeasHub.mk (env_of_user user store) [idea1] false false GameIdea.empty_form.

Definition zone (user : option User.t) (cached : list Project.t)
           (selected : option string) (rating : Z) : CollaborationZone.state :=
  CollaborationZone.mk (env_of_user user store) cached false false
    selected "Nice work" rating Project.empty_form.

Definition profile (user : option User.t) (b : Backend.t) : Profile.state :=
  Profile.mk (env_of_user user b) false (Backend.portfolio_items b) true None ""
    PortfolioItem.empty_form false.

(** A project nobody has rated yet, and the zone showing it. *)
Definition project0 : Project.t :=
  Project.mk "row-1" "u1" (Project.mkForm "Engine" "A small engine." "Idea") 0 0.

Definition fresh_zone : CollaborationZone.state :=
  CollaborationZone.mk
    (env_of_user (Some u1) (Backend.mk [] [] [project0] [] [] [] [] 2))
    [project0] false false None "" 5 Project.empty_form.

(** Open the feedback dialog of a project, pick a rating, submit. *)
Definition rate (projectId : string) (r : Z) (st : CollaborationZone.state)
  : CollaborationZone.state :=
  exec CollaborationZone.handleFeedbackSubmit
    (CollaborationZone.setRating r
       (CollaborationZone.setSelectedProject (Some projectId) st)).

(** The creator of [idea1] and [project1]. *)
Definition u2 : User.t := User.mk "u2".

(** A project of someone else, which the zone may have cached. *)
Definition project9 : Project.t :=
  Project.mk "row-9" "u1" (Project.mkForm "Tiles" "A tile editor." "Idea") 8 2.

End Sample.

(** * Properties *)

(** ** File classification *)

Lemma split_not_nil (sep : ascii) (s : string) : JsString.split sep s <> [].
Proof.
  induction s as [|c s IH]; simpl; [discriminate|].
  destruct (Ascii.eqb c sep); [discriminate|].
  destruct (JsString.split sep s); [contradiction | discriminate].
Qed.

Lemma pop_some (l : list string) : l <> [] -> exists x, JsString.pop l = Some x.
Proof.
  induction l as [|a l IH]; [contradiction|]. intros _.
  destruct l as [|b l]; [exists a; reflexivity|].
  destruct IH as [x Hx]; [discriminate|]. exists x. exact Hx.
Qed.

(** [split('.').pop()] is never [undefined]: a file name always has a
    last piece. *)
Lemma fileExt_defined (fileName : string) : exists e, fileExt fileName = Some e.
Proof. apply pop_some, split_not_nil. Qed.

Lemma split_without_sep (sep : ascii) (s : string) :
  JsString.contains sep s = false -> JsString.split sep s = [s].
Proof.
  induction s as [|c s IH]; simpl; [reflexivity|].
  intros H. apply orb_false_iff in H. destruct H as [Hc Hs].
  rewrite Hc, (IH Hs). reflexivity.
Qed.

(** For a name without a dot, the piece taken for the extension is the
    whole name. *)
Lemma fileExt_dotless (fileName : string) :
  Spec.has_extension fileName = false -> fileExt fileName = Some fileName.
Proof.
  intros H. unfold fileExt. rewrite (split_without_sep _ _ H). reflexivity.
Qed.

(** [getFileType] names the kind of the lower-cased last piece; it is
    defined on every string. *)
Lemma getFileType_by_ext (fileName : string) :
  getFileType fileName = Spec.kind_of_ext (lowered_ext fileName).
Proof. reflexivity. Qed.

Lemma getFileType_dotless (fileName : string) :
  Spec.has_extension fileName = false ->
  getFileType fileName = Spec.kind_of_ext (JsString.toLowerCase fileName).
Proof.
  intros H. unfold getFileType, lowered_ext. rewrite (fileExt_dotless _ H). reflexivity.
Qed.

(** A name that ends in a dot, and the empty name, are links. *)
Lemma getFileType_empty_ext (fileName : string) :
  fileExt fileName = Some "" -> getFileType fileName = link.
Proof.
  intros H. unfold getFileType, lowered_ext. rewrite H. reflexivity.
Qed.

(** The examples of the specification. *)
Example getFileType_examples :
  getFileType "photo.PNG" = image /\
  getFileType "doc.pdf" = pdf /\
  getFileType "notes" = link /\
  getFileType "readme.TXT" = link /\
  getFileType "" = link /\
  getFileType "archive.tar.JPeG" = image.
Proof. repeat split. Qed.

(** C10 fails on the code for names without a dot: the name [pdf] has
    no extension and is classified as a pdf, the name [PNG] as an
    image. *)
Theorem getFileType_dotless_names :
  Spec.has_extension "pdf" = false /\ getFileType "pdf" = pdf /\
  Spec.has_extension "PNG" = false /\ getFileType "PNG" = image.
Proof. repeat split. Qed.

(** ** Arithmetic of the rating average *)

Section RoundingFacts.

Import JsNumber.

(** Rounding to the nearest integer misses the quotient by at most one
    half. *)
Lemma round_half_even_close (n d : Z) :
  0 < d -> 2 * Z.abs (round_half_even n d * d - n) <= d.
Proof.
  intros Hd. unfold round_half_even.
  pose proof (Z.div_mod n d ltac:(lia)) as E.
  pose proof (Z.mod_pos_bound n d Hd) as B.
  set (q := n / d) in *. set (r := n mod d) in *.
  destruct (2 * r <? d) eqn:L1; [apply Z.ltb_lt in L1; nia|].
  apply Z.ltb_ge in L1.
  destruct (d <? 2 * r) eqn:L2; [apply Z.ltb_lt in L2; nia|].
  apply Z.ltb_ge in L2.
  destruct (Z.even q); nia.
Qed.

(** The scaling brings the quotient up to at least 2^52. *)
Lemma quot_shift_scale (a b : Z) :
  0 < a < 2 ^ 48 -> 0 < b ->
  let k := quot_shift a b in
  5 <= k /\ b * 2 ^ 52 <= a * 2 ^ k.
Proof.
  intros Ha Hb. cbv zeta. unfold quot_shift.
  pose proof (Z.log2_spec a ltac:(lia)) as [La Ua].
  pose proof (Z.log2_spec b ltac:(lia)) as [Lb Ub].
  pose proof (Z.log2_nonneg a) as Na.
  pose proof (Z.log2_nonneg b) as Nb.
  assert (Z.log2 a < 48) as La48.
  { apply Z.log2_lt_pow2; lia. }
  set (la := Z.log2 a) in *. set (lb := Z.log2 b) in *.
  set (k := 52 - la + lb).
  assert (5 <= k) as Hk by (subst k; lia).
  rewrite (Z.max_l k 0) by lia. rewrite (Z.max_r (- k) 0) by lia.
  rewrite Z.pow_0_r, Z.mul_1_r.
  destruct (a * 2 ^ k <? b * 2 ^ 52) eqn:T.
  - split; [lia|].
    replace (k + 1) with ((lb + 1) + (52 - la)) by (subst k; lia).
    rewrite Z.pow_add_r by lia.
    assert (2 ^ 52 = 2 ^ la * 2 ^ (52 - la)) as E52.
    { rewrite <- Z.pow_add_r by lia. f_equal. lia. }
    rewrite E52.
    assert (0 < 2 ^ (52 - la)) by (apply Z.pow_pos_nonneg; lia).
    assert (0 < 2 ^ la) by (apply Z.pow_pos_nonneg; lia).
    replace (Z.succ lb) with (lb + 1) in Ub by lia.
    set (X := 2 ^ (lb + 1)) in *. set (L := 2 ^ la) in *.
    set (S := 2 ^ (52 - la)) in *.
    assert (b * L <= a * X) by nia.
    nia.
  - apply Z.ltb_ge in T. split; [lia | exact T].
Qed.

(** The tenth printed for the binary64 quotient of two positive integers
    is a tenth nearest to their exact quotient. *)
Lemma tenths_of_quotient (a b : Z) :
  0 < a < 2 ^ 48 -> 0 < b ->
  let k := quot_shift a b in
  let n := tenths (quot_mant a b k) (- k) in
  0 <= n /\ 2 * Z.abs (10 * a - n * b) <= b.
Proof.
  intros Ha Hb. cbv zeta.
  destruct (quot_shift_scale a b Ha Hb) as [Hk Hs].
  set (k := quot_shift a b) in *.
  unfold quot_mant, tenths.
  rewrite Z.opp_involutive.
  rewrite (Z.max_l k 0) by lia. rewrite (Z.max_r (- k) 0) by lia.
  rewrite Z.pow_0_r, !Z.mul_1_r.
  pose proof (round_half_even_close (a * 2 ^ k) b Hb) as R.
  set (m := round_half_even (a * 2 ^ k) b) in *.
  assert (0 < 2 ^ k) as HP by (apply Z.pow_pos_nonneg; lia).
  set (P := 2 ^ k) in *.
  assert (16 * b < P) as Hprec by nia.
  pose proof (Z.div_mod (20 * m + P) (2 * P) ltac:(lia)) as E.
  pose proof (Z.mod_pos_bound (20 * m + P) (2 * P) ltac:(lia)) as B.
  set (n := (20 * m + P) / (2 * P)) in *.
  set (r := (20 * m + P) mod (2 * P)) in *.
  assert (0 <= m) as Hm by nia.
  split.
  - nia.
  - assert (- P <= 20 * m - 2 * P * n < P) as H2 by lia.
    assert (- b <= 2 * (m * b - a * P) <= b) as H1 by lia.
    assert (10 * a - n * b <= b / 2 \/ b / 2 < 10 * a - n * b) as [C|C] by lia.
    + assert (- (b / 2) <= 10 * a - n * b \/ 10 * a - n * b < - (b/2)) as [C'|C'] by lia.
      * pose proof (Z.div_mod b 2 ltac:(lia)). pose proof (Z.mod_pos_bound b 2 ltac:(lia)). lia.
      * exfalso. pose proof (Z.div_mod b 2 ltac:(lia)). pose proof (Z.mod_pos_bound b 2 ltac:(lia)).
        assert (2 * (10 * a - n * b) <= - b - 1) as D by lia.
        nia.
    + exfalso. pose proof (Z.div_mod b 2 ltac:(lia)). pose proof (Z.mod_pos_bound b 2 ltac:(lia)).
      assert (b + 1 <= 2 * (10 * a - n * b)) as D by lia.
      nia.
Qed.

End RoundingFacts.

(** The string [toFixed(1)] prints for the quotient of a rating sum by a
    positive rating count shows a tenth nearest to the exact average. *)
Lemma toFixed1_div_rounded (s c : Z) :
  0 <= s < 2 ^ 48 -> 0 < c ->
  exists n, 0 <= n /\
            JsNumber.toFixed1 (JsNumber.div s c) = JsNumber.render_tenths n /\
            Spec.rounded_to_1_decimal s c n.
Proof.
  intros Hs Hc. unfold JsNumber.div.
  replace (c =? 0) with false by (symmetry; apply Z.eqb_neq; lia).
  replace (s <? 0) with false by (symmetry; apply Z.ltb_ge; lia).
  replace (c <? 0) with false by (symmetry; apply Z.ltb_ge; lia).
  destruct (s =? 0) eqn:Z0.
  - apply Z.eqb_eq in Z0. subst s. exists 0. split; [lia|]. split.
    + reflexivity.
    + unfold Spec.rounded_to_1_decimal. simpl. lia.
  - apply Z.eqb_neq in Z0.
    rewrite (Z.abs_eq s) by lia. rewrite (Z.abs_eq c) by lia.
    destruct (tenths_of_quotient s c ltac:(lia) Hc) as [Hn Hr].
    eexists. split; [exact Hn|]. split.
    + reflexivity.
    + exact Hr.
Qed.

(** The end-to-end example of the specification: ratings 5, 3 and 4 on
    a project that starts at (0, 0) leave (12, 3), shown as 4.0. *)
Example three_ratings :
  let st := Sample.rate "row-1" 4 (Sample.rate "row-1" 3 (Sample.rate "row-1" 5 Sample.fresh_zone)) in
  stored_project (Env.backend (CollaborationZone.env st)) "row-1"
  = Some (Project.with_rating 12 3 Sample.project0) /\
  map CollaborationZone.getAverageRating (CollaborationZone.projects st) = [Str "4.0"] /\
  List.length (Backend.project_feedback (Env.backend (CollaborationZone.env st))) = 3%nat.
Proof. repeat split. Qed.

(** The division of the model is the binary64 division: on every pair
    of a grid of small numerators and denominators (zero included), and
    on grids of large ones, it returns the value the built-in binary64
    division returns. *)
Example div_agrees_with_binary64 :
  forallb (fun a => forallb (JsNumber.agrees_with_binary64 a)
                      (JsNumber.sample_range 0 1 120))
          (JsNumber.sample_range 0 1 120) = true /\
  forallb (fun a => forallb (JsNumber.agrees_with_binary64 a)
                      (JsNumber.sample_range 13 104729 60))
          (JsNumber.sample_range (2 ^ 31 - 5000) 7919 60) = true /\
  forallb (fun a => forallb (JsNumber.agrees_with_binary64 a)
                      (JsNumber.sample_range (2 ^ 53 - 40) 1 40))
          (JsNumber.sample_range (2 ^ 53 - 40) 1 40
           ++ JsNumber.sample_range 1 1 40)%list = true.
Proof. vm_compute. repeat split. Qed.

(** How exact ties and near-ties print: the binary64 quotient decides. *)
Example toFixed1_samples :
  map (fun sc => JsNumber.toFixed1 (JsNumber.div (fst sc) (snd sc)))
      [(29, 20); (27, 20); (1, 4); (5, 4); (14, 4); (1, 3); (0, 7); (-1, 4)]
  = ["1.4"; "1.4"; "0.3"; "1.3"; "3.5"; "0.3"; "0.0"; "-0.3"].
Proof. reflexivity. Qed.

(** ** Facts about the handlers *)

Ltac unfold_monad :=
  unfold exec, result, try_catch, try_finally, bind, ret, throw, get, modify,
    read_env, supabase, throw_if_error, console_error in *.

(** An accepted request reaches the service and changes its state as
    [Backend.serve] says. *)
Lemma request_online (c : Call) (e : Env.t) (b' : Backend.t) :
  Env.online e -> Backend.serve c (Env.backend e) = Some b' ->
  Env.request c e = (None, Env.answered c b' e).
Proof.
  intros On S. unfold Env.request. rewrite (On c), S. reflexivity.
Qed.

Lemma online_answered (c : Call) (b : Backend.t) (e : Env.t) :
  Env.online e -> Env.online (Env.answered c b e).
Proof. intros On c'. exact (On c'). Qed.

(** Writing the rating of a stored project makes it the stored rating. *)
Lemma find_project_updated (l : list Project.t) (i : string) (p : Project.t) (s c : Z) :
  CollaborationZone.find_project l i = Some p ->
  CollaborationZone.find_project
    (map (fun r => if String.eqb (Project.id r) i
                   then Project.with_rating s c r else r) l) i
  = Some (Project.with_rating s c p).
Proof.
  unfold CollaborationZone.find_project.
  induction l as [|r l IH]; simpl; [discriminate|].
  destruct (String.eqb (Project.id r) i) eqn:E; simpl.
  - rewrite E. intros [= ->]. reflexivity.
  - rewrite E. exact IH.
Qed.

(** C3 as stated fails: with a rating of 7 the handler issues the
    Feedback insert and returns normally. *)
Lemma handleFeedbackSubmit_no_validation :
  let st := Sample.zone (Some Sample.u1) [Sample.project1] (Some "row-2") 7 in
  result CollaborationZone.handleFeedbackSubmit st = Returned tt /\
  Env.trace (CollaborationZone.env st) = [] /\
  Env.trace (CollaborationZone.env (exec CollaborationZone.handleFeedbackSubmit st))
  = [InsertFeedback "row-2" "u1" "Nice work" 7] /\
  is_write (InsertFeedback "row-2" "u1" "Nice work" 7) = true.
Proof. repeat split. Qed.

(** C3, amended. For a rating outside 1..5 the handler validates
    nothing itself: it issues the Feedback insert with that rating and
    nothing else; the repository refuses it, so the stored state is
    unchanged; the handler logs the error and returns normally, leaving
    the dialog as it was. *)
Theorem handleFeedbackSubmit_out_of_range
  (st : CollaborationZone.state) (u : User.t) (sel : string) :
  Env.user (CollaborationZone.env st) = Some u ->
  CollaborationZone.selectedProject st = Some sel ->
  truthy sel = true ->
  ~ (1 <= CollaborationZone.rating st <= 5) ->
  let st' := exec CollaborationZone.handleFeedbackSubmit st in
  let insert := InsertFeedback sel (User.id u) (CollaborationZone.feedbackText st)
                  (CollaborationZone.rating st) in
  result CollaborationZone.handleFeedbackSubmit st = Returned tt /\
  Env.trace (CollaborationZone.env st')
  = (Env.trace (CollaborationZone.env st) ++ [insert])%list /\
  Env.backend (CollaborationZone.env st') = Env.backend (CollaborationZone.env st) /\
  (exists err,
     Env.console (CollaborationZone.env st')
     = (Env.console (CollaborationZone.env st)
        ++ [("Error submitting feedback:", err)])%list) /\
  CollaborationZone.selectedProject st' = Some sel /\
  CollaborationZone.rating st' = CollaborationZone.rating st /\
  CollaborationZone.projects st' = CollaborationZone.projects st.
Proof.
  intros Hu Hsel Ht Hr. cbv zeta.
  assert (Backend.rating_check (CollaborationZone.rating st) = false) as Ck.
  { unfold Backend.rating_check. apply andb_false_iff.
    destruct (Z_le_dec 1 (CollaborationZone.rating st)).
    - right. apply Z.leb_gt. lia.
    - left. apply Z.leb_gt. lia. }
  unfold CollaborationZone.handleFeedbackSubmit.
  unfold_monad. cbn.
  rewrite Hu, Hsel, Ht. cbn.
  unfold Env.request.
  destruct (Env.outage (CollaborationZone.env st) _); cbn.
  - repeat split; eauto.
  - rewrite Ck. cbn. repeat split; eauto.
Qed.

Lemma handleFeedbackSubmit_out_of_range_witness :
  let st := Sample.zone (Some Sample.u1) [Sample.project1] (Some "row-2") 0 in
  Env.backend (CollaborationZone.env (exec CollaborationZone.handleFeedbackSubmit st))
  = Sample.store.
Proof.
  cbv zeta.
  destruct (handleFeedbackSubmit_out_of_range
              (Sample.zone (Some Sample.u1) [Sample.project1] (Some "row-2") 0)
              Sample.u1 "row-2")
    as (_ & _ & H & _).
  - reflexivity.
  - reflexivity.
  - reflexivity.
  - simpl. lia.
  - exact H.
Defined.




(** *** Handlers that check for a user *)








(** Clearing the attachment without a user touches the form only. *)
Lemma handleClearFile_without_user (st : Profile.state) :
  Env.user (Profile.env st) = None ->
  Profile.env (exec Profile.handleClearFile st) = Profile.env st.
Proof.
  intros Hu. unfold Profile.handleClearFile. unfold_monad. cbn.
  rewrite Hu. reflexivity.
Qed.

(** *** Handlers that do not *)


(** Deleting a portfolio item starts with the delete request, and never
    asks the object store for anything: the bucket stays as it was. *)
Lemma handleDeletePortfolioItem_requests (st : Profile.state) (id : string) :
  let st' := exec (Profile.handleDeletePortfolioItem id) st in
  (exists rest,
     Env.trace (Profile.env st')
     = (Env.trace (Profile.env st) ++ DeletePortfolio id :: rest)%list /\
     (rest = [] \/ rest = [Select "portfolio_items"])) /\
  Backend.bucket (Env.backend (Profile.env st'))
  = Backend.bucket (Env.backend (Profile.env st)).
Proof.
  cbv zeta.
  unfold Profile.handleDeletePortfolioItem, Profile.loadPortfolioItems.
  unfold_monad. cbn. unfold Env.request.
  destruct (Env.outage (Profile.env st) (DeletePortfolio id)); cbn.
  - split; [exists []; auto | reflexivity].
  - destruct (Env.user (Profile.env st)); cbn.
    + unfold Env.request. cbn.
      destruct (Env.outage (Profile.env st) (Select _)); cbn;
        (split; [exists [Select "portfolio_items"]; rewrite <- !app_assoc; auto
                | reflexivity]).
    + split; [exists []; auto | reflexivity].
Qed.

(** C4 fails on the code: deleting a portfolio item that holds an
    uploaded image issues the row delete only; no request goes to the
    object store and the image stays in the bucket. *)
Theorem handleDeletePortfolioItem_leaves_object :
  let prof := Sample.profile (Some Sample.u1) Sample.store in
  let prof' := exec (Profile.handleDeletePortfolioItem "row-3") prof in
  PortfolioItem.file_type (PortfolioItem.fields Sample.item1) = "image" /\
  Backend.portfolio_items (Env.backend (Profile.env prof)) = [Sample.item1] /\
  Backend.portfolio_items (Env.backend (Profile.env prof')) = [] /\
  Env.trace (Profile.env prof')
  = [DeletePortfolio "row-3"; Select "portfolio_items"] /\
  existsb is_storage_remove (Env.trace (Profile.env prof')) = false /\
  Backend.bucket (Env.backend (Profile.env prof'))
  = [("u1/u1-1700000000000.png", Sample.art_png)].
Proof. repeat split. Qed.

(** *** Attachments *)

(** What one upload does, by whether the object store takes it. *)
Lemma handleFileUpload_outcome
  (st : Profile.state) (u : User.t) (file : File.t) (kind : UploadKind) :
  Env.user (Profile.env st) = Some u ->
  let path := Storage.file_path (User.id u)
                (Storage.stored_name (User.id u) (Env.now (Profile.env st))
                   (File.name file)) in
  let st' := exec (Profile.handleFileUpload (Some file) kind) st in
  Env.trace (Profile.env st')
  = (Env.trace (Profile.env st) ++ [StorageUpload path file])%list /\
  Env.user (Profile.env st') = Some u /\
  Env.outage (Profile.env st') = Env.outage (Profile.env st) /\
  if Env.accepted (StorageUpload path file) (Profile.env st) then
    Profile.portfolioFormData st'
    = PortfolioItem.with_file (Env.public_url (Profile.env st) path)
        (UploadKind_name kind) (File.name file) (Profile.portfolioFormData st) /\
    Backend.bucket (Env.backend (Profile.env st'))
    = (path, file) :: Backend.bucket (Env.backend (Profile.env st))
  else
    Profile.portfolioFormData st' = Profile.portfolioFormData st /\
    Env.backend (Profile.env st') = Env.backend (Profile.env st).
Proof.
  intros Hu. cbv zeta.
  unfold Profile.handleFileUpload, Storage.uploadPortfolioFile, Storage.getPublicUrl.
  unfold_monad. cbn. rewrite Hu. cbn.
  unfold Env.request, Env.accepted. cbn.
  destruct (Env.outage (Profile.env st) _); cbn.
  - rewrite Hu. auto.
  - destruct (Backend.has_key _ _); cbn; rewrite Hu; auto.
Qed.

(** What clearing the attachment asks of the object store: one removal,
    of the key built from the [file_name] of the form. *)
Lemma handleClearFile_request
  (st : Profile.state) (u : User.t) :
  Env.user (Profile.env st) = Some u ->
  truthy (PortfolioItem.file_name (Profile.portfolioFormData st)) = true ->
  String.eqb (PortfolioItem.file_type (Profile.portfolioFormData st)) "link" = false ->
  Env.trace (Profile.env (exec Profile.handleClearFile st))
  = (Env.trace (Profile.env st) ++
     [StorageRemove
        [Storage.file_path (User.id u)
           (PortfolioItem.file_name (Profile.portfolioFormData st))]])%list.
Proof.
  intros Hu Hn Ht.
  unfold Profile.handleClearFile, Storage.deletePortfolioFile.
  unfold_monad. cbn. rewrite Hu, Hn, Ht. cbn.
  unfold Env.request. cbn.
  destruct (Env.outage (Profile.env st) _); reflexivity.
Qed.

(** A link attachment is cleared without a storage request. *)
Lemma handleClearFile_link (st : Profile.state) :
  PortfolioItem.file_type (Profile.portfolioFormData st) = "link" ->
  Env.trace (Profile.env (exec Profile.handleClearFile st))
  = Env.trace (Profile.env st).
Proof.
  intros Ht.
  unfold Profile.handleClearFile. unfold_monad. cbn. rewrite Ht.
  destruct (Env.user (Profile.env st)); cbn; [|reflexivity].
  rewrite andb_false_r. reflexivity.
Qed.

(** Attach, then detach: the object is stored under the generated key,
    and the removal names the original file name instead. *)
Lemma attach_then_detach
  (st : Profile.state) (u : User.t) (file : File.t) (kind : UploadKind) :
  Env.user (Profile.env st) = Some u ->
  truthy (File.name file) = true ->
  let stored := Storage.file_path (User.id u)
                  (Storage.stored_name (User.id u) (Env.now (Profile.env st))
                     (File.name file)) in
  Env.accepted (StorageUpload stored file) (Profile.env st) = true ->
  let st1 := exec (Profile.handleFileUpload (Some file) kind) st in
  let st2 := exec Profile.handleClearFile st1 in
  Env.trace (Profile.env st2)
  = (Env.trace (Profile.env st) ++
     [StorageUpload stored file;
      StorageRemove [Storage.file_path (User.id u) (File.name file)]])%list.
Proof.
  intros Hu Hn. cbv zeta. intros Acc.
  destruct (handleFileUpload_outcome st u file kind Hu) as (T1 & U1 & _ & F1).
  rewrite Acc in F1. destruct F1 as [F1 _].
  rewrite (handleClearFile_request _ u U1).
  - rewrite T1, F1. cbn. rewrite <- app_assoc. reflexivity.
  - rewrite F1. exact Hn.
  - rewrite F1. destruct kind; reflexivity.
Qed.

(** The generated key is the user's folder, the user's id, the clock
    reading in decimal, and the last dot-separated piece of the name. *)
Lemma stored_key_shape (userId : string) (now : Z) (name ext : string) :
  fileExt name = Some ext ->
  Storage.file_path userId (Storage.stored_name userId now name)
  = userId ++ "/" ++ userId ++ "-" ++ JsString.of_int now ++ "." ++ ext.
Proof.
  intros E. unfold Storage.file_path, Storage.stored_name. rewrite E. reflexivity.
Qed.

(** C2 fails on the code: [art.png] of user [u1] is stored under
    [u1/u1-1700000000000.png], and detaching issues one removal, of
    [u1/art.png]; the stored object stays in the bucket. *)
Theorem detach_removes_another_key :
  let st := Sample.profile (Some Sample.u1) Sample.empty_store in
  let st1 := exec (Profile.handleFileUpload (Some Sample.art_png) upload_image) st in
  let st2 := exec Profile.handleClearFile st1 in
  PortfolioItem.file_type (Profile.portfolioFormData st1) = "image" /\
  PortfolioItem.file_name (Profile.portfolioFormData st1) = "art.png" /\
  Env.trace (Profile.env st1)
  = [StorageUpload "u1/u1-1700000000000.png" Sample.art_png] /\
  Env.trace (Profile.env st2)
  = [StorageUpload "u1/u1-1700000000000.png" Sample.art_png;
     StorageRemove ["u1/art.png"]] /\
  Backend.bucket (Env.backend (Profile.env st2))
  = [("u1/u1-1700000000000.png", Sample.art_png)] /\
  Profile.portfolioFormData st2 = PortfolioItem.empty_form.
Proof. repeat split. Qed.

(** C7 as stated fails: [notes.txt] sent through the image control is
    stored as an image, while its extension names a link. *)
Lemma uploaded_kind_not_from_extension :
  let st := Sample.profile (Some Sample.u1) Sample.empty_store in
  let st' := exec (Profile.handleFileUpload (Some Sample.notes_txt) upload_image) st in
  PortfolioItem.file_type (Profile.portfolioFormData st')
  <> FileType_name (getFileType (File.name Sample.notes_txt)).
Proof. cbv zeta. vm_compute. discriminate. Qed.

(** C7, amended. The kind stored on the attachment of an uploaded file
    is the kind the caller passes to [handleFileUpload] (image or pdf),
    whatever the name of the file; a refused upload leaves the form as
    it was. *)
Theorem uploaded_kind_is_declared
  (st : Profile.state) (u : User.t) (file : File.t) (kind : UploadKind) :
  Env.user (Profile.env st) = Some u ->
  let path := Storage.file_path (User.id u)
                (Storage.stored_name (User.id u) (Env.now (Profile.env st))
                   (File.name file)) in
  let st' := exec (Profile.handleFileUpload (Some file) kind) st in
  if Env.accepted (StorageUpload path file) (Profile.env st) then
    PortfolioItem.file_type (Profile.portfolioFormData st') = UploadKind_name kind /\
    PortfolioItem.file_name (Profile.portfolioFormData st') = File.name file /\
    PortfolioItem.file_url (Profile.portfolioFormData st')
    = Env.public_url (Profile.env st) path /\
    PortfolioItem.file_type (Profile.portfolioFormData st') <> "link"
  else
    Profile.portfolioFormData st' = Profile.portfolioFormData st.
Proof.
  intros Hu. cbv zeta.
  destruct (handleFileUpload_outcome st u file kind Hu) as (_ & _ & _ & F).
  destruct (Env.accepted _ _).
  - destruct F as [F _]. rewrite F. cbn. repeat split.
    destruct kind; discriminate.
  - exact (proj1 F).
Qed.

Lemma uploaded_kind_is_declared_witness :
  let st := Sample.profile (Some Sample.u1) Sample.empty_store in
  let st' := exec (Profile.handleFileUpload (Some Sample.notes_txt) upload_pdf) st in
  PortfolioItem.file_type (Profile.portfolioFormData st') = "pdf".
Proof.
  cbv zeta.
  pose proof (uploaded_kind_is_declared
                (Sample.profile (Some Sample.u1) Sample.empty_store)
                Sample.u1 Sample.notes_txt upload_pdf eq_refl) as H.
  cbv zeta in H. exact (proj1 H).
Defined.

(** * Further properties *)

(** ** Tag toggling *)

Lemma includes_In (l : list string) (x : string) :
  JsString.includes l x = true <-> In x l.
Proof.
  unfold JsString.includes. rewrite existsb_exists. split.
  - intros (y & Hy & E). apply String.eqb_eq in E. subst. exact Hy.
  - intros H. exists x. split; [exact H | apply String.eqb_refl].
Qed.

Lemma includes_not_In (l : list string) (x : string) :
  JsString.includes l x = false <-> ~ In x l.
Proof.
  rewrite <- includes_In. destruct (JsString.includes l x); split; congruence.
Qed.

(** Membership after a toggle. *)
Lemma toggle_membership (tag : string) (tags : list string) :
  (In tag (JsArray.toggle tag tags) <-> ~ In tag tags) /\
  (forall other, other <> tag ->
     (In other (JsArray.toggle tag tags) <-> In other tags)).
Proof.
  unfold JsArray.toggle.
  destruct (JsString.includes tags tag) eqn:E.
  - apply includes_In in E. split.
    + rewrite filter_In, String.eqb_refl. simpl. split; [intros [_ F]; discriminate | tauto].
    + intros other Ho. rewrite filter_In. split; [tauto|].
      intros H. split; [exact H|].
      apply negb_true_iff, String.eqb_neq. exact Ho.
  - apply includes_not_In in E. split.
    + rewrite in_app_iff. simpl. tauto.
    + intros other Ho. rewrite in_app_iff. simpl. split; [|tauto].
      intros [H|[H|[]]]; [exact H | congruence].
Qed.

(** No duplicate comes in. *)
Lemma toggle_NoDup (tag : string) (tags : list string) :
  NoDup tags -> NoDup (JsArray.toggle tag tags).
Proof.
  intros N. unfold JsArray.toggle.
  destruct (JsString.includes tags tag) eqn:E.
  - apply NoDup_filter. exact N.
  - apply includes_not_In in E.
    apply NoDup_app; [exact N | constructor; [intros [] | constructor] |].
    intros x Hx [<-|[]]. exact (E Hx).
Qed.

Lemma filter_absent (tag : string) (tags : list string) :
  ~ In tag tags -> filter (fun t => negb (String.eqb t tag)) tags = tags.
Proof.
  induction tags as [|t l IH]; simpl; [reflexivity|].
  intros H. destruct (String.eqb t tag) eqn:E.
  - apply String.eqb_eq in E. subst. tauto.
  - simpl. rewrite IH by tauto. reflexivity.
Qed.

(** Two toggles in a row. *)
Lemma toggle_again (tag : string) (tags : list string) :
  NoDup tags ->
  JsArray.toggle tag (JsArray.toggle tag tags)
  = if JsString.includes tags tag
    then (filter (fun t => negb (String.eqb t tag)) tags ++ [tag])%list
    else tags.
Proof.
  intros N. unfold JsArray.toggle at 2.
  destruct (JsString.includes tags tag) eqn:E.
  - unfold JsArray.toggle.
    assert (JsString.includes (filter (fun t => negb (String.eqb t tag)) tags) tag = false) as F.
    { apply includes_not_In. rewrite filter_In, String.eqb_refl. simpl.
      intros [_ H]. discriminate. }
    rewrite F. reflexivity.
  - apply includes_not_In in E. unfold JsArray.toggle.
    assert (JsString.includes (tags ++ [tag]) tag = true) as F.
    { apply includes_In, in_app_iff. right. left. reflexivity. }
    rewrite F, filter_app, (filter_absent _ _ E). simpl.
    rewrite String.eqb_refl. simpl. apply app_nil_r.
Qed.

(** Clicking a tag of the idea form flips whether that tag is selected
    and leaves the selection of every other tag, the other fields of
    the form and everything outside the form as they were. *)
Theorem toggleTag_flips_one_tag (st : IdeasHub.state) (tag : string) :
  let form := IdeasHub.formData st in
  let st' := exec (IdeasHub.toggleTag tag) st in
  let form' := IdeasHub.formData st' in
  (In tag (GameIdea.f_tags form') <-> ~ In tag (GameIdea.f_tags form)) /\
  (forall other, other <> tag ->
     (In other (GameIdea.f_tags form') <-> In other (GameIdea.f_tags form))) /\
  GameIdea.with_tags (GameIdea.f_tags form) form' = form /\
  IdeasHub.setFormData form st' = st.
Proof.
  cbv zeta. unfold IdeasHub.toggleTag. unfold_monad. cbn.
  destruct (toggle_membership tag (GameIdea.f_tags (IdeasHub.formData st))) as [A B].
  split; [exact A|]. split; [exact B|].
  destruct st as [e i l s f]. destruct f. split; reflexivity.
Qed.

(** Neither tag toggler ever puts a tag into its form twice: tags
    without duplicates stay without duplicates. *)
Theorem togglers_keep_tags_distinct
  (hub : IdeasHub.state) (prof : Profile.state) (tag : string) :
  NoDup (GameIdea.f_tags (IdeasHub.formData hub)) ->
  NoDup (PortfolioItem.tags (Profile.portfolioFormData prof)) ->
  NoDup (GameIdea.f_tags (IdeasHub.formData (exec (IdeasHub.toggleTag tag) hub))) /\
  NoDup (PortfolioItem.tags
           (Profile.portfolioFormData (exec (Profile.togglePortfolioTag tag) prof))).
Proof.
  intros N1 N2. unfold IdeasHub.toggleTag, Profile.togglePortfolioTag.
  unfold_monad. cbn. split; apply toggle_NoDup; assumption.
Qed.

Lemma togglers_keep_tags_distinct_witness :
  NoDup (GameIdea.f_tags
           (IdeasHub.formData
              (exec (IdeasHub.toggleTag "2D")
                 (exec (IdeasHub.toggleTag "2D") (Sample.ideas_hub None))))).
Proof.
  refine (proj1 (togglers_keep_tags_distinct
                   (exec (IdeasHub.toggleTag "2D") (Sample.ideas_hub None))
                   (Sample.profile None Sample.store) "2D" _ _)).
  - repeat constructor. simpl. tauto.
  - constructor.
Defined.

(** Selecting a portfolio tag and clicking it again gives the form back
    as it was, tag order included; clicking an already selected tag
    twice moves it to the end of the tags. *)
Theorem togglePortfolioTag_twice (st : Profile.state) (tag : string) :
  NoDup (PortfolioItem.tags (Profile.portfolioFormData st)) ->
  let tags := PortfolioItem.tags (Profile.portfolioFormData st) in
  let st2 := exec (Profile.togglePortfolioTag tag)
               (exec (Profile.togglePortfolioTag tag) st) in
  (~ In tag tags -> st2 = st) /\
  (In tag tags ->
   PortfolioItem.tags (Profile.portfolioFormData st2)
   = (filter (fun t => negb (String.eqb t tag)) tags ++ [tag])%list).
Proof.
  intros N. cbv zeta. unfold Profile.togglePortfolioTag. unfold_monad. cbn.
  rewrite (toggle_again tag _ N). split.
  - intros H. apply includes_not_In in H. rewrite H.
    destruct st as [e i l s ed b f up]. destruct f. reflexivity.
  - intros H. apply includes_In in H. rewrite H. reflexivity.
Qed.

Lemma togglePortfolioTag_twice_witness :
  let st := Sample.profile (Some Sample.u1) Sample.store in
  exec (Profile.togglePortfolioTag "Art") (exec (Profile.togglePortfolioTag "Art") st) = st.
Proof.
  cbv zeta.
  refine (proj1 (togglePortfolioTag_twice
                   (Sample.profile (Some Sample.u1) Sample.store) "Art" _) _).
  - constructor.
  - simpl. tauto.
Defined.

(** ** The trending list *)

Section SortByKey.

Context {A : Type} (key : A -> Z).

Let desc (a b : A) : Z := key b - key a.

Lemma insert_perm (x : A) (l : list A) :
  Permutation (JsArray.insert desc x l) (x :: l).
Proof.
  induction l as [|y l IH]; simpl; [reflexivity|].
  destruct (desc x y <=? 0); [reflexivity|].
  rewrite IH. apply perm_swap.
Qed.

Lemma sort_perm (l : list A) : Permutation (JsArray.sort desc l) l.
Proof.
  induction l as [|x l IH]; simpl; [reflexivity|].
  rewrite insert_perm. constructor. exact IH.
Qed.

Lemma insert_sorted (x : A) (l : list A) :
  StronglySorted (fun a b => key b <= key a) l ->
  StronglySorted (fun a b => key b <= key a) (JsArray.insert desc x l).
Proof.
  induction 1 as [|y l S IH F]; simpl.
  - constructor; constructor.
  - destruct (desc x y <=? 0) eqn:E.
    + apply Z.leb_le in E. unfold desc in E.
      constructor; [constructor; assumption|].
      constructor; [lia|].
      eapply Forall_impl; [|exact F]. simpl. intros; lia.
    + apply Z.leb_gt in E. unfold desc in E.
      constructor; [exact IH|].
      rewrite (insert_perm x l). constructor; [lia | exact F].
Qed.

Lemma sort_sorted (l : list A) :
  StronglySorted (fun a b => key b <= key a) (JsArray.sort desc l).
Proof.
  induction l as [|x l IH]; simpl; [constructor | apply insert_sorted, IH].
Qed.

(** Elements of one key keep the order they had. *)
Lemma insert_keeps_ties (k : Z) (x : A) (l : list A) :
  filter (fun a => key a =? k) (JsArray.insert desc x l)
  = filter (fun a => key a =? k) (x :: l).
Proof.
  induction l as [|y l IH]; [reflexivity|].
  simpl JsArray.insert.
  destruct (desc x y <=? 0) eqn:E; [reflexivity|].
  apply Z.leb_gt in E. unfold desc in E.
  simpl in *. rewrite IH.
  destruct (key x =? k) eqn:Ex; destruct (key y =? k) eqn:Ey; try reflexivity.
  apply Z.eqb_eq in Ex, Ey. lia.
Qed.

Lemma sort_keeps_ties (k : Z) (l : list A) :
  filter (fun a => key a =? k) (JsArray.sort desc l)
  = filter (fun a => key a =? k) l.
Proof.
  induction l as [|x l IH]; [reflexivity|].
  simpl JsArray.sort. rewrite insert_keeps_ties. simpl. rewrite IH. reflexivity.
Qed.

Lemma sorted_prefix_dominates (n : nat) (l : list A) :
  StronglySorted (fun a b => key b <= key a) l ->
  forall p q, In p (firstn n l) -> In q (skipn n l) -> key q <= key p.
Proof.
  intros S. revert n. induction S as [|y l S IH F]; intros n p q Hp Hq.
  - rewrite firstn_nil in Hp. contradiction.
  - destruct n as [|n]; simpl in *; [contradiction|].
    destruct Hp as [<-|Hp].
    + rewrite Forall_forall in F. apply F.
      rewrite <- (firstn_skipn n l). apply in_or_app. right. exact Hq.
    + eapply IH; eassumption.
Qed.

End SortByKey.

(** The trending list holds at most five posts, all of them posts of
    the feed, in descending order of upvotes, and no post left out has
    more upvotes than a post in the list. *)
Theorem trendingPosts_top_five (posts : list MediaPost.t) :
  let top := CommunityMedia.trendingPosts posts in
  List.length top = Nat.min 5 (List.length posts) /\
  StronglySorted (fun a b => MediaPost.upvotes b <= MediaPost.upvotes a) top /\
  exists rest,
    Permutation posts (top ++ rest) /\
    forall p q, In p top -> In q rest -> MediaPost.upvotes q <= MediaPost.upvotes p.
Proof.
  cbv zeta. unfold CommunityMedia.trendingPosts, JsArray.slice0.
  set (sorted := JsArray.sort _ posts).
  assert (Permutation sorted posts) as P by apply (sort_perm MediaPost.upvotes).
  assert (StronglySorted (fun a b => MediaPost.upvotes b <= MediaPost.upvotes a) sorted)
    as S by apply (sort_sorted MediaPost.upvotes).
  split; [|split].
  - rewrite length_firstn, (Permutation_length P). reflexivity.
  - clear P. revert S. generalize 5%nat. intros n S. revert n.
    induction S as [|y l S IH F]; intros n.
    + rewrite firstn_nil. constructor.
    + destruct n as [|n]; simpl; [constructor|].
      constructor; [apply IH|].
      rewrite Forall_forall in *. intros x Hx. apply F.
      rewrite <- (firstn_skipn n l). apply in_or_app. left. exact Hx.
  - exists (skipn 5 sorted). split.
    + rewrite firstn_skipn. symmetry. exact P.
    + apply (sorted_prefix_dominates MediaPost.upvotes). exact S.
Qed.

(** Posts with the same number of upvotes appear in the trending list
    in the order of the feed: among the posts with [k] upvotes, the list
    holds the first ones of the feed, in feed order. *)
Theorem trendingPosts_ties_in_feed_order (posts : list MediaPost.t) (k : Z) :
  exists n,
    filter (fun p => MediaPost.upvotes p =? k) (CommunityMedia.trendingPosts posts)
    = firstn n (filter (fun p => MediaPost.upvotes p =? k) posts).
Proof.
  unfold CommunityMedia.trendingPosts, JsArray.slice0.
  rewrite <- (sort_keeps_ties MediaPost.upvotes k posts).
  generalize (JsArray.sort (fun a b => MediaPost.upvotes b - MediaPost.upvotes a) posts).
  generalize 5%nat. intros n l. revert n.
  induction l as [|x l IH]; intros n.
  - exists 0%nat. rewrite firstn_nil. reflexivity.
  - destruct n as [|n]; [exists 0%nat; reflexivity|].
    simpl. destruct (IH n) as [m Hm].
    destruct (MediaPost.upvotes x =? k).
    + exists (S m). simpl. rewrite Hm. reflexivity.
    + exists m. exact Hm.
Qed.

(** The feed of the sample: ties at 4 upvotes. *)
Example trendingPosts_sample :
  map MediaPost.id
    (CommunityMedia.trendingPosts
       (map (fun iu => MediaPost.mk (fst iu) "u1" MediaPost.empty_form (snd iu) 0)
            [("a", 4); ("b", 9); ("c", 4); ("d", 1); ("e", 4); ("f", 7); ("g", 4)]))
  = ["b"; "f"; "a"; "c"; "e"].
Proof. reflexivity. Qed.

(** ** More on file names and storage keys *)

Lemma lower_char_dot (c : ascii) :
  Ascii.eqb (JsString.lower_char c) "." = Ascii.eqb c ".".
Proof.
  destruct c as [[] [] [] [] [] [] [] []]; reflexivity.
Qed.

Lemma lower_char_idem (c : ascii) :
  JsString.lower_char (JsString.lower_char c) = JsString.lower_char c.
Proof.
  destruct c as [[] [] [] [] [] [] [] []]; reflexivity.
Qed.

Lemma toLowerCase_idem (s : string) :
  JsString.toLowerCase (JsString.toLowerCase s) = JsString.toLowerCase s.
Proof.
  induction s as [|c s IH]; simpl; [reflexivity|].
  rewrite lower_char_idem, IH. reflexivity.
Qed.

(** Lower-casing a name lower-cases each of its dot-separated pieces. *)
Lemma split_toLowerCase (s : string) :
  JsString.split "." (JsString.toLowerCase s)
  = map JsString.toLowerCase (JsString.split "." s).
Proof.
  induction s as [|c s IH]; simpl; [reflexivity|].
  rewrite lower_char_dot. destruct (Ascii.eqb c "."); simpl.
  - rewrite IH. reflexivity.
  - rewrite IH. destruct (JsString.split "." s); reflexivity.
Qed.

Lemma pop_map (f : string -> string) (l : list string) :
  JsString.pop (map f l) = option_map f (JsString.pop l).
Proof.
  induction l as [|a l IH]; [reflexivity|].
  destruct l as [|b l]; [reflexivity|]. exact IH.
Qed.

Lemma lowered_ext_toLowerCase (fileName : string) :
  lowered_ext (JsString.toLowerCase fileName) = lowered_ext fileName.
Proof.
  unfold lowered_ext, fileExt. rewrite split_toLowerCase, pop_map.
  destruct (JsString.pop (JsString.split "." fileName)); simpl; [|reflexivity].
  apply toLowerCase_idem.
Qed.

(** The kind of a file does not depend on the case of its name: two
    names that are equal once lower-cased are classified alike. *)
Theorem getFileType_case_insensitive (name1 name2 : string) :
  JsString.toLowerCase name1 = JsString.toLowerCase name2 ->
  getFileType name1 = getFileType name2.
Proof.
  intros E. unfold getFileType.
  rewrite <- (lowered_ext_toLowerCase name1), <- (lowered_ext_toLowerCase name2), E.
  reflexivity.
Qed.

Lemma getFileType_case_insensitive_witness :
  getFileType "Cover.JPeG" = getFileType "cover.jpeg".
Proof.
  apply (getFileType_case_insensitive "Cover.JPeG" "cover.jpeg"). reflexivity.
Defined.

Lemma split_app_dot (base ext : string) :
  JsString.split "." (base ++ String "." ext)
  = (removelast (JsString.split "." base)
     ++ [match JsString.pop (JsString.split "." base) with
         | Some x => x
         | None => ""
         end]
     ++ JsString.split "." ext)%list.
Proof.
  induction base as [|c base IH]; simpl; [reflexivity|].
  destruct (Ascii.eqb c "."); simpl.
  - rewrite IH. 
    destruct (JsString.split "." base) eqn:S; [exfalso; eapply split_not_nil; eassumption|].
    reflexivity.
  - rewrite IH.
    destruct (JsString.split "." base) as [|seg segs] eqn:S;
      [exfalso; eapply split_not_nil; eassumption|].
    destruct segs; reflexivity.
Qed.

Lemma pop_app (l1 l2 : list string) :
  l2 <> [] -> JsString.pop (l1 ++ l2) = JsString.pop l2.
Proof.
  intros N. induction l1 as [|a l1 IH]; [reflexivity|].
  simpl. destruct (l1 ++ l2)%list eqn:E; [|exact IH].
  apply app_eq_nil in E. tauto.
Qed.

(** Whatever comes before the last dot plays no part: the piece after
    it is the extension, and it alone decides the kind (so
    [a.b.png], [.png] and [x.png] are all images). *)
Theorem getFileType_by_last_piece (base ext : string) :
  Spec.has_extension ext = false ->
  fileExt (base ++ String "." ext) = Some ext /\
  getFileType (base ++ String "." ext)
  = Spec.kind_of_ext (JsString.toLowerCase ext).
Proof.
  intros H.
  assert (fileExt (base ++ String "." ext) = Some ext) as E.
  { unfold fileExt. rewrite split_app_dot.
    rewrite pop_app by (simpl; discriminate).
    rewrite pop_app by apply split_not_nil.
    rewrite (split_without_sep _ _ H). reflexivity. }
  split; [exact E|].
  unfold getFileType, lowered_ext. rewrite E. reflexivity.
Qed.

Lemma getFileType_by_last_piece_witness :
  getFileType ("archive.tar" ++ String "." "PDF") = pdf.
Proof.
  apply (getFileType_by_last_piece "archive.tar" "PDF"). reflexivity.
Defined.

Lemma length_append (a b : string) :
  String.length (a ++ b) = (String.length a + String.length b)%nat.
Proof. induction a as [|c a IH]; simpl; [reflexivity | rewrite IH; reflexivity]. Qed.

Lemma append_cancel_l (p a b : string) : p ++ a = p ++ b -> a = b.
Proof.
  induction p as [|c p IH]; simpl; [auto|]. intros [= E]. auto.
Qed.

Lemma append_cancel_r (a b s : string) : a ++ s = b ++ s -> a = b.
Proof.
  revert b. induction a as [|c a IH]; intros [|d b] E; simpl in E.
  - reflexivity.
  - apply (f_equal String.length) in E. simpl in E. rewrite length_append in E. lia.
  - apply (f_equal String.length) in E. simpl in E. rewrite length_append in E. lia.
  - injection E as -> E. f_equal. apply IH. exact E.
Qed.

Lemma to_int_proper (n : Z) :
  Z.to_int n <> Decimal.Pos Decimal.Nil /\ Z.to_int n <> Decimal.Neg Decimal.Nil.
Proof.
  destruct n as [|p|p]; simpl; split; try discriminate;
    intros [= E]; exact (DecimalPos.Unsigned.to_uint_nonnil p E).
Qed.

(** The decimal text of an integer determines it. *)
Lemma of_int_inj (n m : Z) : JsString.of_int n = JsString.of_int m -> n = m.
Proof.
  unfold JsString.of_int. intros E.
  apply DecimalZ.to_int_inj.
  destruct (to_int_proper n) as [Pn Nn]. destruct (to_int_proper m) as [Pm Nm].
  pose proof (NilZero.isi (Z.to_int n) Pn Nn) as Hn.
  pose proof (NilZero.isi (Z.to_int m) Pm Nm) as Hm.
  rewrite E in Hn. congruence.
Qed.

(** The clock reading keeps the keys of one user apart: the same file
    name uploaded at two different milliseconds gets two different
    keys. *)
Theorem stored_key_differs_by_time (userId name : string) (t1 t2 : Z) :
  t1 <> t2 ->
  Storage.file_path userId (Storage.stored_name userId t1 name)
  <> Storage.file_path userId (Storage.stored_name userId t2 name).
Proof.
  intros Ht E. apply Ht. unfold Storage.file_path, Storage.stored_name in E.
  apply append_cancel_l in E. apply (append_cancel_l "/") in E.
  apply append_cancel_l in E. apply (append_cancel_l "-") in E.
  apply append_cancel_r in E. apply of_int_inj. exact E.
Qed.

Lemma stored_key_differs_by_time_witness :
  Storage.file_path "u1" (Storage.stored_name "u1" 1700000000000 "art.png")
  <> Storage.file_path "u1" (Storage.stored_name "u1" 1700000000001 "art.png").
Proof.
  apply (stored_key_differs_by_time "u1" "art.png" 1700000000000 1700000000001).
  lia.
Defined.

(** ** What the average shows *)

(** When the rating sum is a whole multiple [q] of the count, the
    average is shown exactly, as [q] followed by [.0]. *)
Theorem getAverageRating_whole (p : Project.t) (q : Z) :
  0 < Project.rating_count p ->
  0 <= q ->
  Project.rating_sum p = q * Project.rating_count p ->
  Project.rating_sum p <= Spec.sql_integer_max ->
  CollaborationZone.getAverageRating p = Str (JsString.of_int q ++ ".0").
Proof.
  intros Hc Hq Hs Hmax. unfold CollaborationZone.getAverageRating.
  replace (Project.rating_count p =? 0) with false by (symmetry; apply Z.eqb_neq; lia).
  unfold Spec.sql_integer_max in Hmax.
  destruct (toFixed1_div_rounded (Project.rating_sum p) (Project.rating_count p))
    as (n & Hn & E & R); [nia | lia |].
  rewrite E. unfold Spec.rounded_to_1_decimal in R. rewrite Hs in R.
  set (c := Project.rating_count p) in *.
  assert (n = 10 * q) as -> by nia.
  unfold JsNumber.render_tenths.
  replace (10 * q / 10) with q by (symmetry; rewrite Z.mul_comm; apply Z.div_mul; lia).
  replace (10 * q mod 10) with 0 by (symmetry; rewrite Z.mul_comm; apply Z.mod_mul; lia).
  reflexivity.
Qed.

Lemma getAverageRating_whole_witness :
  CollaborationZone.getAverageRating (Project.with_rating 12 3 Sample.project1)
  = Str (JsString.of_int 4 ++ ".0").
Proof.
  apply (getAverageRating_whole (Project.with_rating 12 3 Sample.project1) 4);
    vm_compute; congruence.
Defined.

(** ** Posting and upvoting ideas *)

(** A submitted idea is stored once, for the signed-in user, with no
    upvotes and no views; the form goes back to its defaults, the form
    panel closes, and the list shown is the stored list, newest first. *)
Theorem ideas_handleSubmit_stores (st : IdeasHub.state) (u : User.t) :
  Env.user (IdeasHub.env st) = Some u ->
  Env.online (IdeasHub.env st) ->
  let b := Env.backend (IdeasHub.env st) in
  let st' := exec IdeasHub.handleSubmit st in
  let b' := Env.backend (IdeasHub.env st') in
  Backend.ideas b'
  = GameIdea.mk (Backend.fresh_id b) (User.id u) (IdeasHub.formData st) 0 0
    :: Backend.ideas b /\
  IdeasHub.ideas st' = Backend.ideas b' /\
  IdeasHub.formData st' = GameIdea.empty_form /\
  IdeasHub.showForm st' = false /\
  Env.console (IdeasHub.env st') = Env.console (IdeasHub.env st).
Proof.
  intros Hu On. cbv zeta.
  unfold IdeasHub.handleSubmit, IdeasHub.loadIdeas. unfold_monad. cbn.
  rewrite Hu. cbn. unfold Env.request. repeat (rewrite On; cbn).
  repeat split.
Qed.

Lemma ideas_handleSubmit_stores_witness :
  List.length
    (Backend.ideas
       (Env.backend (IdeasHub.env (exec IdeasHub.handleSubmit
                                     (Sample.ideas_hub (Some Sample.u1))))))
  = 2%nat.
Proof.
  destruct (ideas_handleSubmit_stores (Sample.ideas_hub (Some Sample.u1)) Sample.u1)
    as (H & _).
  - reflexivity.
  - intro c. reflexivity.
  - rewrite H. reflexivity.
Defined.

(** When the insert fails, nothing is stored and what the user typed is
    kept: the form data, the open form panel and the list shown are as
    before, and the error is logged. *)
Theorem ideas_handleSubmit_failure_keeps_form (st : IdeasHub.state) (u : User.t) :
  Env.user (IdeasHub.env st) = Some u ->
  Env.outage (IdeasHub.env st)
    (InsertIdea (IdeasHub.formData st) (User.id u)) = true ->
  let st' := exec IdeasHub.handleSubmit st in
  Env.backend (IdeasHub.env st') = Env.backend (IdeasHub.env st) /\
  IdeasHub.formData st' = IdeasHub.formData st /\
  IdeasHub.showForm st' = IdeasHub.showForm st /\
  IdeasHub.ideas st' = IdeasHub.ideas st /\
  Env.trace (IdeasHub.env st')
  = (Env.trace (IdeasHub.env st)
     ++ [InsertIdea (IdeasHub.formData st) (User.id u)])%list /\
  Env.console (IdeasHub.env st')
  = (Env.console (IdeasHub.env st)
     ++ [("Error creating idea:",
          Unavailable (InsertIdea (IdeasHub.formData st) (User.id u)))])%list.
Proof.
  intros Hu Out. cbv zeta.
  unfold IdeasHub.handleSubmit. unfold_monad. cbn.
  rewrite Hu. cbn. unfold Env.request. rewrite Out. cbn.
  repeat split.
Qed.

Lemma ideas_handleSubmit_failure_keeps_form_witness :
  let st := IdeasHub.mk
              (Env.mk (Some Sample.u1) Sample.store (fun _ => true) 0 Sample.cdn [] [])
              [] false true (GameIdea.mkForm "Maze" "Puzzle" "Story" "A maze." ["2D"]) in
  IdeasHub.formData (exec IdeasHub.handleSubmit st)
  = GameIdea.mkForm "Maze" "Puzzle" "Story" "A maze." ["2D"].
Proof.
  cbv zeta.
  refine (proj1 (proj2 (ideas_handleSubmit_failure_keeps_form _ Sample.u1 _ _)));
    reflexivity.
Defined.

Lemma map_update_other_columns (i : string) (n : Z) (l : list GameIdea.t) :
  let l' := map (fun r => if String.eqb (GameIdea.id r) i
                          then GameIdea.with_upvotes n r else r) l in
  map GameIdea.id l' = map GameIdea.id l /\
  map GameIdea.creator_id l' = map GameIdea.creator_id l /\
  map GameIdea.fields l' = map GameIdea.fields l /\
  map GameIdea.view_count l' = map GameIdea.view_count l /\
  (forall r, In r l -> GameIdea.id r <> i -> In r l') /\
  ((forall r, In r l -> GameIdea.id r <> i) -> l' = l).
Proof.
  cbv zeta. induction l as [|r l IH]; simpl.
  - repeat split; auto.
  - destruct IH as (I1 & I2 & I3 & I4 & I5 & I6).
    rewrite I1, I2, I3, I4.
    destruct (String.eqb (GameIdea.id r) i) eqn:E; simpl.
    + repeat split.
      * intros r0 [<-|H] N; [apply String.eqb_eq in E; contradiction | right; auto].
      * intros H. apply String.eqb_eq in E. exfalso. apply (H r); auto.
    + repeat split.
      * intros r0 [<-|H] N; [left; reflexivity | right; auto].
      * intros H. f_equal. apply I6. intros r0 H0. apply H. right. exact H0.
Qed.

(** An upvote that is served changes the upvote column of the idea
    with that id and nothing else: ids, creators, texts and view counts
    are as before, every other idea is untouched, and the list shown
    afterwards is the stored list; for an id no stored idea has, the
    stored ideas stay exactly as they were and nothing is logged. *)
Theorem handleUpvote_changes_one_column
  (st : IdeasHub.state) (ideaId : string) (c : Z) :
  Env.online (IdeasHub.env st) ->
  let l := Backend.ideas (Env.backend (IdeasHub.env st)) in
  let st' := exec (IdeasHub.handleUpvote ideaId c) st in
  let l' := Backend.ideas (Env.backend (IdeasHub.env st')) in
  map GameIdea.id l' = map GameIdea.id l /\
  map GameIdea.creator_id l' = map GameIdea.creator_id l /\
  map GameIdea.fields l' = map GameIdea.fields l /\
  map GameIdea.view_count l' = map GameIdea.view_count l /\
  (forall r, In r l -> GameIdea.id r <> ideaId -> In r l') /\
  ((forall r, In r l -> GameIdea.id r <> ideaId) -> l' = l) /\
  IdeasHub.ideas st' = l' /\
  Env.console (IdeasHub.env st') = Env.console (IdeasHub.env st).
Proof.
  intros On. cbv zeta.
  unfold IdeasHub.handleUpvote, IdeasHub.loadIdeas. unfold_monad. cbn.
  unfold Env.request. repeat (rewrite On; cbn).
  destruct (map_update_other_columns ideaId (c + 1)
              (Backend.ideas (Env.backend (IdeasHub.env st))))
    as (I1 & I2 & I3 & I4 & I5 & I6).
  repeat split; assumption.
Qed.

Lemma handleUpvote_changes_one_column_witness :
  Backend.ideas
    (Env.backend (IdeasHub.env (exec (IdeasHub.handleUpvote "row-9" 3)
                                  (Sample.ideas_hub (Some Sample.u1)))))
  = [Sample.idea1].
Proof.
  destruct (handleUpvote_changes_one_column
              (Sample.ideas_hub (Some Sample.u1)) "row-9" 3)
    as (_ & _ & _ & _ & _ & H & _).
  - intro c. reflexivity.
  - apply H. intros r [<-|[]]. discriminate.
Defined.

(** An upvote whose update fails changes nothing but the log: the
    stored ideas and the list shown are as before, and no reload is
    asked for. *)
Theorem handleUpvote_failure (st : IdeasHub.state) (ideaId : string) (c : Z) :
  Env.outage (IdeasHub.env st) (UpdateUpvotes game_ideas ideaId (c + 1)) = true ->
  let st' := exec (IdeasHub.handleUpvote ideaId c) st in
  Env.backend (IdeasHub.env st') = Env.backend (IdeasHub.env st) /\
  IdeasHub.ideas st' = IdeasHub.ideas st /\
  Env.trace (IdeasHub.env st')
  = (Env.trace (IdeasHub.env st)
     ++ [UpdateUpvotes game_ideas ideaId (c + 1)])%list /\
  Env.console (IdeasHub.env st')
  = (Env.console (IdeasHub.env st)
     ++ [("Error upvoting:",
          Unavailable (UpdateUpvotes game_ideas ideaId (c + 1)))])%list.
Proof.
  intros Out. cbv zeta.
  unfold IdeasHub.handleUpvote. unfold_monad. cbn.
  unfold Env.request. rewrite Out. cbn. repeat split.
Qed.

Lemma handleUpvote_failure_witness :
  let st := IdeasHub.mk
              (Env.mk (Some Sample.u1) Sample.store (fun _ => true) 0 Sample.cdn [] [])
              [Sample.idea1] false false GameIdea.empty_form in
  Env.backend (IdeasHub.env (exec (IdeasHub.handleUpvote "row-1" 7) st)) = Sample.store.
Proof.
  cbv zeta.
  refine (proj1 (handleUpvote_failure _ "row-1" 7 _)). reflexivity.
Defined.

(** ** Rating dialogs and new projects *)





(** A project just created has no ratings and shows an average of 0;
    the first rating [r] given to it makes the stored fields (r, 1) and
    the average shown [r.0]. *)
Theorem first_rating_of_new_project
  (st : CollaborationZone.state) (u : User.t) (r : Z) :
  Env.user (CollaborationZone.env st) = Some u ->
  Env.online (CollaborationZone.env st) ->
  1 <= r <= 5 ->
  let b := Env.backend (CollaborationZone.env st) in
  let new := Project.mk (Backend.fresh_id b) (User.id u)
               (CollaborationZone.projectFormData st) 0 0 in
  let st1 := exec CollaborationZone.handleProjectSubmit st in
  let st2 := exec CollaborationZone.handleFeedbackSubmit
               (CollaborationZone.setRating r
                  (CollaborationZone.setSelectedProject (Some (Project.id new)) st1)) in
  CollaborationZone.projects st1 = new :: Backend.projects b /\
  CollaborationZone.getAverageRating new = Num 0 /\
  stored_project (Env.backend (CollaborationZone.env st2)) (Project.id new)
  = Some (Project.with_rating r 1 new) /\
  CollaborationZone.getAverageRating (Project.with_rating r 1 new)
  = Str (JsString.of_int r ++ ".0").
Proof.
  intros Hu On Hr. cbv zeta.
  assert (CollaborationZone.projects (exec CollaborationZone.handleProjectSubmit st)
          = Project.mk (Backend.fresh_id (Env.backend (CollaborationZone.env st)))
              (User.id u) (CollaborationZone.projectFormData st) 0 0
            :: Backend.projects (Env.backend (CollaborationZone.env st))) as P1.
  { unfold CollaborationZone.handleProjectSubmit, CollaborationZone.loadProjects.
    unfold_monad. cbn. rewrite Hu. cbn.
    unfold Env.request. repeat (rewrite On; cbn). reflexivity. }
  split; [exact P1|]. split; [reflexivity|]. split.
  - unfold CollaborationZone.handleFeedbackSubmit, CollaborationZone.handleProjectSubmit,
      CollaborationZone.loadProjects.
    unfold_monad. cbn. rewrite Hu. cbn.
    unfold Env.request. repeat (rewrite On; cbn). rewrite Hu. cbn.
    assert (Backend.rating_check r = true) as Ck.
    { unfold Backend.rating_check. apply andb_true_iff; split; apply Z.leb_le; lia. }
    rewrite Ck. cbn. unfold CollaborationZone.find_project. cbn.
    rewrite !String.eqb_refl. cbn. repeat (rewrite On; cbn).
    unfold stored_project, CollaborationZone.find_project. cbn.
    rewrite ?String.eqb_refl. cbn. rewrite ?String.eqb_refl. reflexivity.
  - assert (r = 1 \/ r = 2 \/ r = 3 \/ r = 4 \/ r = 5) as C by lia.
    destruct C as [->|[->|[->|[->| ->]]]]; reflexivity.
Qed.

Lemma first_rating_of_new_project_witness :
  let st1 := exec CollaborationZone.handleProjectSubmit Sample.fresh_zone in
  let st2 := exec CollaborationZone.handleFeedbackSubmit
               (CollaborationZone.setRating 3
                  (CollaborationZone.setSelectedProject (Some "row-2") st1)) in
  stored_project (Env.backend (CollaborationZone.env st2)) "row-2"
  = Some (Project.mk "row-2" "u1" Project.empty_form 3 1).
Proof.
  cbv zeta.
  refine (proj1 (proj2 (proj2
            (first_rating_of_new_project Sample.fresh_zone Sample.u1 3 _ _ _)))).
  - reflexivity.
  - intro c. reflexivity.
  - lia.
Defined.

(** ** The portfolio form *)

(** Entering a link attaches it without any request: kind [link], the
    address as both target and name; clearing it again asks nothing of
    the object store and empties the three attachment fields.  A
    dismissed or empty prompt changes nothing. *)
Theorem link_attach_and_clear (st : Profile.state) (url : string) :
  truthy url = true ->
  let st1 := exec (Profile.handleAddLink (Some url)) st in
  let st2 := exec Profile.handleClearFile st1 in
  Profile.portfolioFormData st1
  = PortfolioItem.with_file url "link" url (Profile.portfolioFormData st) /\
  Profile.env st1 = Profile.env st /\
  Profile.env st2 = Profile.env st /\
  Profile.portfolioFormData st2
  = PortfolioItem.with_file "" "" "" (Profile.portfolioFormData st) /\
  exec (Profile.handleAddLink None) st = st /\
  exec (Profile.handleAddLink (Some "")) st = st.
Proof.
  intros Ht. cbv zeta.
  unfold Profile.handleAddLink, Profile.handleClearFile. unfold_monad. cbn.
  rewrite Ht. cbn.
  destruct (Env.user (Profile.env st)); cbn; rewrite ?andb_false_r; cbn;
    repeat split.
Qed.

Lemma link_attach_and_clear_witness :
  let st := Sample.profile (Some Sample.u1) Sample.store in
  Profile.env (exec Profile.handleClearFile
                 (exec (Profile.handleAddLink (Some "https://example.org/demo")) st))
  = Profile.env st.
Proof.
  cbv zeta.
  refine (proj1 (proj2 (proj2
            (link_attach_and_clear (Sample.profile (Some Sample.u1) Sample.store)
               "https://example.org/demo" _)))).
  reflexivity.
Defined.

(** An upload the object store refuses - the generated key is taken
    (nothing is overwritten) or the round trip fails - leaves the
    stored objects and the form as they were, logs the error, and
    returns normally. *)
Theorem handleFileUpload_refused
  (st : Profile.state) (u : User.t) (file : File.t) (kind : UploadKind) :
  Env.user (Profile.env st) = Some u ->
  let path := Storage.file_path (User.id u)
                (Storage.stored_name (User.id u) (Env.now (Profile.env st))
                   (File.name file)) in
  Env.outage (Profile.env st) (StorageUpload path file) = true \/
  Backend.has_key path (Env.backend (Profile.env st)) = true ->
  let st' := exec (Profile.handleFileUpload (Some file) kind) st in
  result (Profile.handleFileUpload (Some file) kind) st = Returned tt /\
  Env.backend (Profile.env st') = Env.backend (Profile.env st) /\
  Profile.portfolioFormData st' = Profile.portfolioFormData st /\
  Profile.uploadingFile st' = false /\
  exists err,
    Env.console (Profile.env st')
    = (Env.console (Profile.env st) ++ [("Error uploading file:", err)])%list.
Proof.
  intros Hu. cbv zeta. intros Ref.
  unfold Profile.handleFileUpload, Storage.uploadPortfolioFile, Storage.getPublicUrl.
  unfold_monad. cbn. rewrite Hu. cbn.
  unfold Env.request. cbn.
  destruct (Env.outage (Profile.env st) _) eqn:O; cbn.
  - repeat split. eauto.
  - destruct Ref as [Ref|Ref]; [discriminate|].
    rewrite Ref. cbn. repeat split. eauto.
Qed.

Lemma handleFileUpload_refused_witness :
  let st1 := exec (Profile.handleFileUpload (Some Sample.art_png) upload_image)
               (Sample.profile (Some Sample.u1) Sample.empty_store) in
  let other := File.mk "other.png" "<other bytes>" in
  Backend.bucket
    (Env.backend (Profile.env (exec (Profile.handleFileUpload (Some other) upload_image) st1)))
  = [("u1/u1-1700000000000.png", Sample.art_png)].
Proof.
  cbv zeta.
  pose proof (handleFileUpload_refused
                (exec (Profile.handleFileUpload (Some Sample.art_png) upload_image)
                   (Sample.profile (Some Sample.u1) Sample.empty_store))
                Sample.u1 (File.mk "other.png" "<other bytes>") upload_image
                eq_refl (or_intror eq_refl)) as H.
  cbv zeta in H. destruct H as (_ & H & _). rewrite H. reflexivity.
Defined.

(** Whatever happens to the upload, the busy flag is off again when
    [handleFileUpload] is done, and at most one request was issued. *)
Theorem handleFileUpload_releases_flag
  (st : Profile.state) (file : File.t) (kind : UploadKind) (u : User.t) :
  Env.user (Profile.env st) = Some u ->
  let st' := exec (Profile.handleFileUpload (Some file) kind) st in
  Profile.uploadingFile st' = false /\
  exists c, Env.trace (Profile.env st') = (Env.trace (Profile.env st) ++ [c])%list.
Proof.
  intros Hu. cbv zeta.
  unfold Profile.handleFileUpload, Storage.uploadPortfolioFile, Storage.getPublicUrl.
  unfold_monad. cbn. rewrite Hu. cbn. unfold Env.request. cbn.
  destruct (Env.outage (Profile.env st) _); cbn; [eauto|].
  destruct (Backend.has_key _ _); cbn; eauto.
Qed.

Lemma handleFileUpload_releases_flag_witness :
  Profile.uploadingFile
    (exec (Profile.handleFileUpload (Some Sample.art_png) upload_image)
       (Sample.profile (Some Sample.u1) Sample.store)) = false.
Proof.
  refine (proj1 (handleFileUpload_releases_flag
                   (Sample.profile (Some Sample.u1) Sample.store)
                   Sample.art_png upload_image Sample.u1 _)).
  reflexivity.
Defined.

(** ** Portfolio items *)

(** Saving a new portfolio item stores it once, owned by the signed-in
    user; the form is emptied and closed, and the list shown afterwards
    is the user's own items, the new one first. *)
Theorem handlePortfolioSubmit_creates (st : Profile.state) (u : User.t) :
  Env.user (Profile.env st) = Some u ->
  Profile.editingItem st = None ->
  Env.online (Profile.env st) ->
  let b := Env.backend (Profile.env st) in
  let new := PortfolioItem.mk (Backend.fresh_id b) (User.id u)
               (Profile.portfolioFormData st) in
  let own := fun r => String.eqb (PortfolioItem.user_id r) (User.id u) in
  let st' := exec Profile.handlePortfolioSubmit st in
  Backend.portfolio_items (Env.backend (Profile.env st'))
  = new :: Backend.portfolio_items b /\
  Profile.portfolioItems st' = new :: filter own (Backend.portfolio_items b) /\
  Forall (fun r => PortfolioItem.user_id r = User.id u) (Profile.portfolioItems st') /\
  Profile.portfolioFormData st' = PortfolioItem.empty_form /\
  Profile.editingItem st' = None /\
  Profile.showPortfolioForm st' = false.
Proof.
  intros Hu He On. cbv zeta.
  unfold Profile.handlePortfolioSubmit, Profile.loadPortfolioItems.
  unfold_monad. cbn. rewrite Hu, He. cbn.
  unfold Env.request. repeat (rewrite On; cbn). rewrite Hu. cbn.
  repeat (rewrite On; cbn). rewrite String.eqb_refl.
  repeat split.
  constructor; [reflexivity|].
  apply Forall_forall. intros r Hr. apply filter_In in Hr.
  apply String.eqb_eq. exact (proj2 Hr).
Qed.

Lemma handlePortfolioSubmit_creates_witness :
  List.length
    (Profile.portfolioItems
       (exec Profile.handlePortfolioSubmit (Sample.profile (Some Sample.u1) Sample.store)))
  = 2%nat.
Proof.
  destruct (handlePortfolioSubmit_creates
              (Sample.profile (Some Sample.u1) Sample.store) Sample.u1)
    as (_ & H & _).
  - reflexivity.
  - reflexivity.
  - intro c. reflexivity.
  - rewrite H. reflexivity.
Defined.





(** ** Without a user *)

(** The handlers that record who acts return at once when nobody is
    signed in: they issue no request, log nothing, and leave their
    component exactly as it was. *)
Theorem guarded_handlers_without_user
  (hub : IdeasHub.state) (media : CommunityMedia.state)
  (zone : CollaborationZone.state) (prof : Profile.state)
  (file : option File.t) (kind : UploadKind) :
  Env.user (IdeasHub.env hub) = None ->
  Env.user (CommunityMedia.env media) = None ->
  Env.user (CollaborationZone.env zone) = None ->
  Env.user (Profile.env prof) = None ->
  exec IdeasHub.handleSubmit hub = hub /\
  exec CommunityMedia.handleSubmit media = media /\
  exec CollaborationZone.handleProjectSubmit zone = zone /\
  exec CollaborationZone.handleFeedbackSubmit zone = zone /\
  exec Profile.handlePortfolioSubmit prof = prof /\
  exec Profile.handleProfileUpdate prof = prof /\
  exec Profile.loadPortfolioItems prof = prof /\
  exec (Profile.handleFileUpload file kind) prof = prof.
Proof.
  intros H1 H2 H3 H4.
  unfold IdeasHub.handleSubmit, CommunityMedia.handleSubmit,
    CollaborationZone.handleProjectSubmit, CollaborationZone.handleFeedbackSubmit,
    Profile.handlePortfolioSubmit, Profile.handleProfileUpdate,
    Profile.loadPortfolioItems, Profile.handleFileUpload.
  unfold_monad. cbn. rewrite H1, H2, H3, H4.
  repeat split. destruct file; reflexivity.
Qed.

Lemma guarded_handlers_without_user_witness :
  exec CollaborationZone.handleFeedbackSubmit
    (Sample.zone None [Sample.project1] (Some "row-2") 4)
  = Sample.zone None [Sample.project1] (Some "row-2") 4.
Proof.
  refine (proj1 (proj2 (proj2 (proj2
            (guarded_handlers_without_user (Sample.ideas_hub None)
               (CommunityMedia.mk (Sample.env_of_user None Sample.store) [] false false
                  MediaPost.empty_form)
               (Sample.zone None [Sample.project1] (Some "row-2") 4)
               (Sample.profile None Sample.store) None upload_image _ _ _ _)))));
    reflexivity.
Defined.

(** * Properties that depend on what is shown, cached and admitted *)

(** ** Reading the text of an average *)

Lemma uint_all_digits (d : Decimal.uint) :
  Spec.all_digits (NilEmpty.string_of_uint d) = true.
Proof. induction d; simpl; auto. Qed.

Lemma uint_value_acc (d : Decimal.uint) (p : positive) :
  Spec.digits_value (Z.pos p) (NilEmpty.string_of_uint d)
  = Z.pos (Pos.of_uint_acc d p).
Proof.
  revert p. induction d; intros p;
    cbn [NilEmpty.string_of_uint Spec.digits_value Pos.of_uint_acc];
    try reflexivity;
    rewrite <- IHd;
    apply (f_equal (fun a => Spec.digits_value a (NilEmpty.string_of_uint d)));
    match goal with
    | |- context [Spec.digit_value ?c] =>
        let v := eval vm_compute in (Spec.digit_value c) in
        change (Spec.digit_value c) with v
    end; lia.
Qed.

Lemma uint_value (d : Decimal.uint) :
  Spec.digits_value 0 (NilEmpty.string_of_uint d) = Z.of_N (Pos.of_uint d).
Proof.
  induction d;
    cbn [NilEmpty.string_of_uint Spec.digits_value Pos.of_uint Z.of_N];
    try reflexivity; try exact IHd;
    rewrite <- uint_value_acc;
    apply (f_equal (fun a => Spec.digits_value a (NilEmpty.string_of_uint d)));
    match goal with
    | |- context [Spec.digit_value ?c] =>
        let v := eval vm_compute in (Spec.digit_value c) in
        change (Spec.digit_value c) with v
    end; lia.
Qed.

(** The decimal text of a non-negative integer: digits only, not empty,
    and read back digit by digit it is that integer. *)
Lemma of_int_digits (q : Z) :
  0 <= q ->
  Spec.all_digits (JsString.of_int q) = true /\
  JsString.of_int q <> "" /\
  Spec.digits_value 0 (JsString.of_int q) = q.
Proof.
  intros Hq. unfold JsString.of_int.
  destruct q as [|p|p]; [repeat split; discriminate | | lia].
  simpl Z.to_int. unfold NilZero.string_of_int, NilZero.string_of_uint.
  pose proof (DecimalPos.Unsigned.to_uint_nonnil p) as NN.
  pose proof (DecimalPos.Unsigned.of_to p) as RT.
  destruct (Pos.to_uint p) eqn:E; try contradiction;
    (split; [rewrite <- E at 1; rewrite E; apply uint_all_digits|];
     split; [simpl; discriminate|];
     rewrite uint_value, RT; reflexivity).
Qed.

Lemma digit_not_point (c : ascii) :
  Spec.is_digit c = true -> Ascii.eqb c "." = false.
Proof. destruct c as [[] [] [] [] [] [] [] []]; vm_compute; congruence. Qed.

Lemma cut_at_point_digits (a b : string) :
  Spec.all_digits a = true ->
  Spec.cut_at_point (a ++ String "." b) = Some (a, b).
Proof.
  induction a as [|c a IH]; simpl; [reflexivity|].
  intros H. apply andb_true_iff in H. destruct H as [Hc Ha].
  rewrite (digit_not_point c Hc), (IH Ha). reflexivity.
Qed.

(** What [render_tenths] prints reads back as the tenths it was given:
    the whole part in decimal digits, a point, one digit. *)
Lemma read_render_tenths (n : Z) :
  0 <= n -> Spec.read_decimal1 (JsNumber.render_tenths n) = Some n.
Proof.
  intros Hn. unfold JsNumber.render_tenths, Spec.read_decimal1.
  pose proof (Z.div_mod n 10 ltac:(lia)) as E.
  pose proof (Z.mod_pos_bound n 10 ltac:(lia)) as B.
  assert (0 <= n / 10) as Hq by (apply Z.div_pos; lia).
  destruct (of_int_digits (n / 10) Hq) as (D & NE & V).
  change (JsString.of_int (n / 10) ++ "." ++ JsString.of_int (n mod 10))
    with (JsString.of_int (n / 10) ++ String "." (JsString.of_int (n mod 10))).
  rewrite (cut_at_point_digits _ _ D).
  destruct (JsString.of_int (n / 10)) as [|c whole] eqn:W; [contradiction|].
  set (r := n mod 10) in *.
  assert (r = 0 \/ r = 1 \/ r = 2 \/ r = 3 \/ r = 4 \/ r = 5 \/ r = 6 \/ r = 7
          \/ r = 8 \/ r = 9) as C by lia.
  rewrite D.
  destruct C as [R|[R|[R|[R|[R|[R|[R|[R|[R|R]]]]]]]]]; rewrite R in *;
    vm_compute JsString.of_int; cbv beta iota;
    match goal with
    | |- context [Spec.is_digit ?d] =>
        change (Spec.is_digit d) with true;
        let v := eval vm_compute in (Spec.digit_value d) in
        change (Spec.digit_value d) with v
    end;
    cbn [andb]; rewrite V; f_equal; lia.
Qed.

(** The text [toFixed(1)] prints for the quotient of a rating sum by a
    positive rating count reads as a tenth nearest to the exact
    average. *)
Lemma toFixed1_div_reads (s c : Z) :
  0 <= s < 2 ^ 48 -> 0 < c ->
  exists n,
    Spec.read_decimal1 (JsNumber.toFixed1 (JsNumber.div s c)) = Some n /\
    Spec.rounded_to_1_decimal s c n.
Proof.
  intros Hs Hc.
  destruct (toFixed1_div_rounded s c Hs Hc) as (n & Hn & E & R).
  exists n. rewrite E. split; [apply read_render_tenths; exact Hn | exact R].
Qed.

(** The reader on texts that are not a number with one decimal. *)
Example read_decimal1_samples :
  map Spec.read_decimal1 ["4.0"; "12.5"; "0.3"; ""; "4"; "4.05"; ".5"; "-0.3"; "a.1"]
  = [Some 40; Some 125; Some 3; None; None; None; None; None; None].
Proof. reflexivity. Qed.

(** C9. [getAverageRating] depends on nothing but the two rating fields
    of the project.  It is the number 0 when [rating_count] is 0,
    whatever [rating_sum] is.  Otherwise (for the values an SQL integer
    column holds) it is a text made of decimal digits, a point and one
    digit, and the number it shows is a tenth nearest to
    [rating_sum / rating_count]: the average rounded to 1 decimal. *)
Theorem getAverageRating_spec (p : Project.t) (s c : Z) :
  let q := Project.with_rating s c p in
  (forall p', CollaborationZone.getAverageRating (Project.with_rating s c p')
              = CollaborationZone.getAverageRating q) /\
  (c = 0 -> CollaborationZone.getAverageRating q = Num 0) /\
  (0 < c <= Spec.sql_integer_max -> 0 <= s <= Spec.sql_integer_max ->
   exists text n,
     CollaborationZone.getAverageRating q = Str text /\
     Spec.read_decimal1 text = Some n /\
     Spec.rounded_to_1_decimal s c n).
Proof.
  cbv zeta. unfold CollaborationZone.getAverageRating, Spec.sql_integer_max.
  simpl. split; [reflexivity|]. split.
  - intros ->. reflexivity.
  - intros Hc Hs.
    replace (c =? 0) with false by (symmetry; apply Z.eqb_neq; lia).
    destruct (toFixed1_div_reads s c) as (n & E & R); [lia | lia |].
    eexists. exists n. split; [reflexivity|]. split; assumption.
Qed.

Lemma getAverageRating_spec_witness :
  CollaborationZone.getAverageRating (Project.with_rating 12 0 Sample.project1) = Num 0 /\
  exists text n,
    CollaborationZone.getAverageRating (Project.with_rating 29 20 Sample.project1)
    = Str text /\
    Spec.read_decimal1 text = Some n /\
    Spec.rounded_to_1_decimal 29 20 n.
Proof.
  split.
  - apply (getAverageRating_spec Sample.project1 12 0). reflexivity.
  - apply (getAverageRating_spec Sample.project1 29 20); vm_compute; split; congruence.
Defined.

(** When every rating counted lies between 1 and 5 (so the sum lies
    between the count and five times the count), the average shown is a
    text that reads as a number between 1.0 and 5.0. *)
Theorem getAverageRating_between_1_and_5 (p : Project.t) :
  0 < Project.rating_count p ->
  Project.rating_count p <= Project.rating_sum p <= 5 * Project.rating_count p ->
  Project.rating_sum p <= Spec.sql_integer_max ->
  exists text n,
    CollaborationZone.getAverageRating p = Str text /\
    Spec.read_decimal1 text = Some n /\
    10 <= n <= 50.
Proof.
  intros Hc Hs Hmax. unfold CollaborationZone.getAverageRating.
  replace (Project.rating_count p =? 0) with false by (symmetry; apply Z.eqb_neq; lia).
  unfold Spec.sql_integer_max in Hmax.
  destruct (toFixed1_div_reads (Project.rating_sum p) (Project.rating_count p))
    as (n & E & R); [lia | lia |].
  eexists. exists n. split; [reflexivity|]. split; [exact E|].
  unfold Spec.rounded_to_1_decimal in R.
  set (s := Project.rating_sum p) in *. set (c := Project.rating_count p) in *.
  split.
  - assert (9 < n \/ n <= 9) as [|C] by lia; [lia|]. exfalso. nia.
  - assert (n < 51 \/ 51 <= n) as [|C] by lia; [lia|]. exfalso. nia.
Qed.

Lemma getAverageRating_between_1_and_5_witness :
  exists text n,
    CollaborationZone.getAverageRating Sample.project1 = Str text /\
    Spec.read_decimal1 text = Some n /\
    10 <= n <= 50.
Proof.
  apply (getAverageRating_between_1_and_5 Sample.project1); vm_compute;
    try split; congruence.
Defined.

(** ** The project a handler finds *)

(** The lookup of the handler returns the first entry with the id. *)
Lemma find_project_with_id (l : list Project.t) (i : string) (p : Project.t) :
  Spec.project_with_id l i p -> CollaborationZone.find_project l i = Some p.
Proof.
  intros (before & after & -> & Hi & Hb).
  unfold CollaborationZone.find_project.
  induction before as [|q before IH]; simpl.
  - subst i. rewrite String.eqb_refl. reflexivity.
  - inversion Hb as [|? ? Hq Hb']; subst.
    apply String.eqb_neq in Hq. rewrite Hq. apply IH. exact Hb'.
Qed.

Lemma find_project_without_id (l : list Project.t) (i : string) :
  Spec.no_project_with_id l i -> CollaborationZone.find_project l i = None.
Proof.
  unfold Spec.no_project_with_id, CollaborationZone.find_project.
  induction 1 as [|q l Hq _ IH]; simpl; [reflexivity|].
  apply String.eqb_neq in Hq. rewrite Hq. exact IH.
Qed.


(** ** Rating a project *)




(** C8. [handleFeedbackSubmit] takes the rating fields from the project
    list the client fetched earlier, not from the repository.  With the
    Feedback insert served, it returns normally and logs nothing, and:
    when the selected project is in the cached list, the one further
    write is the update computed from the cached entry, whatever the
    stored row holds; when no cached entry has the id, no update is
    issued and the stored projects stay exactly as they were. *)
Theorem handleFeedbackSubmit_reads_cached_list
  (st : CollaborationZone.state) (u : User.t) (sel : string) (stored : Project.t) :
  Env.user (CollaborationZone.env st) = Some u ->
  CollaborationZone.selectedProject st = Some sel ->
  truthy sel = true ->
  Env.online (CollaborationZone.env st) ->
  Backend.rating_check (CollaborationZone.rating st) = true ->
  Spec.project_with_id
    (Backend.projects (Env.backend (CollaborationZone.env st))) sel stored ->
  let b := Env.backend (CollaborationZone.env st) in
  let st' := exec CollaborationZone.handleFeedbackSubmit st in
  let b' := Env.backend (CollaborationZone.env st') in
  let insert := InsertFeedback sel (User.id u) (CollaborationZone.feedbackText st)
                  (CollaborationZone.rating st) in
  result CollaborationZone.handleFeedbackSubmit st = Returned tt /\
  Env.console (CollaborationZone.env st') = Env.console (CollaborationZone.env st) /\
  Backend.project_feedback b'
  = Feedback.mk (Backend.fresh_id b) sel (User.id u)
      (CollaborationZone.feedbackText st) (CollaborationZone.rating st)
    :: Backend.project_feedback b /\
  (forall cached,
     Spec.project_with_id (CollaborationZone.projects st) sel cached ->
     Env.trace (CollaborationZone.env st')
     = (Env.trace (CollaborationZone.env st) ++
        [insert;
         UpdateRating sel
           (Project.rating_sum cached + CollaborationZone.rating st)
           (Project.rating_count cached + 1);
         Select "projects"])%list) /\
  (Spec.no_project_with_id (CollaborationZone.projects st) sel ->
   Env.trace (CollaborationZone.env st')
   = (Env.trace (CollaborationZone.env st) ++ [insert; Select "projects"])%list /\
   Backend.projects b' = Backend.projects b).
Proof.
  intros Hu Hsel Ht On Ck _. cbv zeta.
  unfold CollaborationZone.handleFeedbackSubmit, CollaborationZone.loadProjects.
  unfold_monad. cbn.
  rewrite Hu, Hsel, Ht. cbn.
  unfold Env.request. repeat (rewrite On; cbn). rewrite Ck. cbn.
  destruct (CollaborationZone.find_project (CollaborationZone.projects st) sel)
    as [found|] eqn:F; cbn; repeat (rewrite On; cbn).
  - split; [reflexivity|]. split; [reflexivity|]. split; [reflexivity|]. split.
    + intros cached Hc. rewrite (find_project_with_id _ _ _ Hc) in F.
      injection F as <-. rewrite <- !app_assoc. reflexivity.
    + intros Hn. rewrite (find_project_without_id _ _ Hn) in F. discriminate.
  - split; [reflexivity|]. split; [reflexivity|]. split; [reflexivity|]. split.
    + intros cached Hc. rewrite (find_project_with_id _ _ _ Hc) in F. discriminate.
    + intros _. split; [|reflexivity]. rewrite <- !app_assoc. reflexivity.
Qed.

Lemma handleFeedbackSubmit_reads_cached_list_witness :
  let seen := Project.with_rating 5 1 Sample.project1 in
  let stale := Sample.zone (Some Sample.u2) [Sample.project9; seen] (Some "row-2") 4 in
  let other := Sample.zone (Some Sample.u2) [Sample.project9] (Some "row-2") 4 in
  Env.trace (CollaborationZone.env (exec CollaborationZone.handleFeedbackSubmit stale))
  = [InsertFeedback "row-2" "u2" "Nice work" 4; UpdateRating "row-2" 9 2;
     Select "projects"] /\
  Env.trace (CollaborationZone.env (exec CollaborationZone.handleFeedbackSubmit other))
  = [InsertFeedback "row-2" "u2" "Nice work" 4; Select "projects"] /\
  Backend.projects
    (Env.backend (CollaborationZone.env (exec CollaborationZone.handleFeedbackSubmit other)))
  = [Sample.project1].
Proof.
  cbv zeta.
  assert (Spec.project_with_id [Sample.project1] "row-2" Sample.project1) as St.
  { exists [], []. split; [reflexivity|]. split; [reflexivity | constructor]. }
  destruct (handleFeedbackSubmit_reads_cached_list
              (Sample.zone (Some Sample.u2)
                 [Sample.project9; Project.with_rating 5 1 Sample.project1]
                 (Some "row-2") 4)
              Sample.u2 "row-2" Sample.project1
              eq_refl eq_refl eq_refl (fun c => eq_refl) eq_refl St)
    as (_ & _ & _ & A & _).
  destruct (handleFeedbackSubmit_reads_cached_list
              (Sample.zone (Some Sample.u2) [Sample.project9] (Some "row-2") 4)
              Sample.u2 "row-2" Sample.project1
              eq_refl eq_refl eq_refl (fun c => eq_refl) eq_refl St)
    as (_ & _ & _ & _ & B).
  split.
  - apply (A (Project.with_rating 5 1 Sample.project1)).
    exists [Sample.project9], []. split; [reflexivity|]. split; [reflexivity|].
    constructor; [discriminate | constructor].
  - apply B. constructor; [discriminate | constructor].
Defined.

(** ** Upvotes and who may write them *)





(** ** The shell, and the handlers without a user *)




(** With a user, the shell shows the profile or one of the four
    sections, and an unknown section name falls back to the idea hub. *)
Example AppContent_samples :
  App.AppContent (Some Sample.u1) false "media" false
  = App.LayoutView App.CommunityMediaView /\
  App.AppContent (Some Sample.u1) false "settings" false
  = App.LayoutView App.IdeasHubView /\
  App.AppContent (Some Sample.u1) false "events" true = App.ProfileView /\
  App.AppContent (Some Sample.u1) true "events" true = App.LoadingView.
Proof. repeat split. Qed.

(** ** Clearing an attachment *)

(** Clearing the attachment always succeeds from the form's point of
    view: the three attachment fields end up empty and the other fields
    stay, the handler returns normally and stored rows are untouched.
    A removal is asked of the object store exactly when a user is
    signed in and the form holds a named attachment that is not a link;
    when that removal fails the error is logged as
    'Error deleting file:' and swallowed; otherwise nothing is
    logged. *)
Theorem handleClearFile_always_clears (st : Profile.state) :
  let form := Profile.portfolioFormData st in
  let removal :=
    match Env.user (Profile.env st) with
    | Some u =>
        if truthy (PortfolioItem.file_name form)
           && negb (String.eqb (PortfolioItem.file_type form) "link")
        then Some (StorageRemove
                     [Storage.file_path (User.id u) (PortfolioItem.file_name form)])
        else None
    | None => None
    end in
  let st' := exec Profile.handleClearFile st in
  result Profile.handleClearFile st = Returned tt /\
  Profile.portfolioFormData st' = PortfolioItem.with_file "" "" "" form /\
  Backend.portfolio_items (Env.backend (Profile.env st'))
  = Backend.portfolio_items (Env.backend (Profile.env st)) /\
  Profile.portfolioItems st' = Profile.portfolioItems st /\
  Env.trace (Profile.env st')
  = (Env.trace (Profile.env st)
     ++ match removal with Some c => [c] | None => [] end)%list /\
  Env.console (Profile.env st')
  = (Env.console (Profile.env st)
     ++ match removal with
        | Some c =>
            if Env.outage (Profile.env st) c
            then [("Error deleting file:", Unavailable c)]
            else []
        | None => []
        end)%list.
Proof.
  cbv zeta.
  unfold Profile.handleClearFile, Storage.deletePortfolioFile. unfold_monad. cbn.
  destruct (Env.user (Profile.env st)) as [u|]; cbn.
  - destruct (truthy _ && negb _); cbn.
    + unfold Env.request. cbn.
      destruct (Env.outage (Profile.env st) _); cbn; rewrite ?app_nil_r; repeat split.
    + rewrite !app_nil_r. repeat split.
  - rewrite !app_nil_r. repeat split.
Qed.

(** A removal that fails while clearing an uploaded image: the form is
    cleared all the same and the error is in the log. *)
Example handleClearFile_failed_removal :
  let down := fun c => match c with StorageRemove _ => true | _ => false end in
  let form := PortfolioItem.with_file "https://cdn.example/u1/x.png" "image" "art.png"
                PortfolioItem.empty_form in
  let st := Profile.mk (Env.mk (Some Sample.u1) Sample.store down 0 Sample.cdn [] [])
              false [] true None "" form false in
  let st' := exec Profile.handleClearFile st in
  Profile.portfolioFormData st' = PortfolioItem.empty_form /\
  Env.console (Profile.env st')
  = [("Error deleting file:", Unavailable (StorageRemove ["u1/art.png"]))] /\
  Env.backend (Profile.env st') = Sample.store.
Proof. repeat split. Qed.
